(** * certman: configuration resolution, credential derivation and the
    certificate lifecycle decision logic

    A shallow embedding of [certman/config.py], [certman/providers.py],
    [certman/config_merge.py] and the [check] / [new] / [renew] commands of
    [certman/cli.py], followed by the properties of the specification that
    are settled against it.

    Conventions of the embedding.
    - A Python [str] is a [string] whose characters are the code points
      U+0000 to U+00FF; [isspace] and [lower] below are Python's tables
      restricted to that range.
    - [Optional[str]] is [option string]; Python truthiness of such a value
      ([None] and the empty string are falsy) is [truthy].
    - The process environment ([dict[str, str]], [os.environ]) is a
      [gmap string string].
    - A raised exception is a value of [exn] carrying the message of the
      source; functions that may raise return a [result]. *)

From Stdlib Require Import ZArith Strings.String Strings.Ascii List Bool Lia.
From stdpp Require Import base gmap strings list sorting.

Local Open Scope string_scope.
Local Open Scope Z_scope.
Set Warnings "-register-all,-clear-no-such-hyp".

(** ** Python strings *)

Module PyStr.

(** The line feed, written "\n" in the source. *)
Definition nl : string := String (ascii_of_nat 10) EmptyString.

(** [str.isspace] on one character of the range U+0000..U+00FF. *)
Definition isspace (c : ascii) : bool :=
  let n := nat_of_ascii c in
  ((9 <=? n)%nat && (n <=? 13)%nat)
  || ((28 <=? n)%nat && (n <=? 32)%nat)
  || (n =? 133)%nat || (n =? 160)%nat.

Fixpoint lstrip (s : string) : string :=
  match s with
  | EmptyString => EmptyString
  | String c s' => if isspace c then lstrip s' else s
  end.

Fixpoint rstrip (s : string) : string :=
  match s with
  | EmptyString => EmptyString
  | String c s' =>
      match rstrip s' with
      | EmptyString => if isspace c then EmptyString else String c EmptyString
      | r => String c r
      end
  end.

(** [s.strip()] *)
Definition strip (s : string) : string := rstrip (lstrip s).

(** [str.lower] on one character of the range U+0000..U+00FF. *)
Definition lower_char (c : ascii) : ascii :=
  let n := nat_of_ascii c in
  if ((65 <=? n)%nat && (n <=? 90)%nat)
     || ((192 <=? n)%nat && (n <=? 222)%nat && negb (n =? 215)%nat)
  then ascii_of_nat (n + 32) else c.

(** [s.lower()] *)
Fixpoint lower (s : string) : string :=
  match s with
  | EmptyString => EmptyString
  | String c s' => String (lower_char c) (lower s')
  end.

(** [s.startswith(p)] *)
Definition startswith (s p : string) : bool := String.prefix p s.

(** [s.endswith(p)] *)
Definition endswith (s p : string) : bool :=
  let n := String.length s in
  let k := String.length p in
  (k <=? n)%nat && String.eqb (String.substring (n - k) k s) p.

(** [s[i:-j]] for literal non-negative [i] and [j]: the characters from
    index [i] up to, not including, index [len(s) - j]; empty when the
    bounds cross. *)
Definition slice_from_to_end_minus (i j : nat) (s : string) : string :=
  String.substring i (String.length s - j - i) s.

(** Truthiness of a [str]. *)
Definition nonempty (s : string) : bool := negb (String.eqb s "").

(** Truthiness of an [Optional[str]]. *)
Definition truthy (v : option string) : bool :=
  match v with
  | None => false
  | Some s => nonempty s
  end.

(** The [str] held by an [Optional[str]] that has tested truthy. *)
Definition the (v : option string) : string := default "" v.

(** ["sep".join(ls)] *)
Definition join (sep : string) (ls : list string) : string :=
  String.concat sep ls.

Fixpoint insert_sorted (x : string) (l : list string) : list string :=
  match l with
  | [] => [x]
  | y :: l' => if String.leb x y then x :: l else y :: insert_sorted x l'
  end.

(** [sorted(ls)] for a list of [str]: ascending by code points. *)
Definition sorted (ls : list string) : list string :=
  foldr insert_sorted [] ls.

End PyStr.

(** ** Exceptions and fallible results *)

Inductive exn : Type :=
| ValueError (msg : string)
| BadParameter (msg : string)
| ValidationError (msg : string)
| FileNotFoundError (msg : string)
| ParseError (msg : string)
| SSLError (msg : string)
| Exit (code : Z).

Inductive result (A : Type) : Type :=
| Ok (a : A)
| Raise (e : exn).

Arguments Ok {A} a.
Arguments Raise {A} e.

#[global] Instance result_ret : MRet result := fun A a => Ok a.

#[global] Instance result_bind : MBind result := fun A B k r =>
  match r with
  | Ok a => k a
  | Raise e => Raise e
  end.

(** Truthiness of a Python list. *)
Definition nonempty_list {A : Type} (l : list A) : bool :=
  match l with
  | [] => false
  | _ :: _ => true
  end.

(** ** certman/config.py *)

Module Config.

Record GlobalConfig : Type := {
  data_dir : string;
  conf_dir : string;
  run_dir : string;
  log_dir : string;
  output_dir : string;
  letsencrypt_dir : string;
  acme_server : string;
  email : string
}.

Record CredentialsConfig : Type := {
  access_key_id : option string;
  access_key_secret : option string;
  api_token : option string
}.

Record EntryConfig : Type := {
  name : string;
  description : string;
  primary_domain : string;
  secondary_domains : list string;
  wildcard : bool;
  dns_provider : string;
  account_id : option string;
  credentials : CredentialsConfig
}.

Record AppConfig : Type := {
  global_ : GlobalConfig;
  entries : list EntryConfig
}.

Record GlobalOnlyConfig : Type := {
  go_global_ : GlobalConfig;
  scan_items_glob : string
}.

Definition _is_env_ref (value : string) : bool :=
  PyStr.startswith value "${" && PyStr.endswith value "}"
  && (3 <? String.length value)%nat.

Definition _env_ref_key (value : string) : string :=
  PyStr.strip (PyStr.slice_from_to_end_minus 2 1 value).

(** [not env.get(k)] *)
Definition env_unset (env : gmap string string) (k : string) : bool :=
  negb (PyStr.truthy (env !! k)).

(** One round of the first loop of [_required_env_keys]: the names a
    single credential field adds to [missing]. *)
Definition field_missing (env : gmap string string) (value : option string)
  : list string :=
  match value with
  | None => []
  | Some v =>
      if negb (PyStr.nonempty v) then []
      else if _is_env_ref v then
        let k := _env_ref_key v in
        if env_unset env k then [k] else []
      else []
  end.

(** [value and not _is_env_ref(value)], as a truth value. *)
Definition is_plain (value : option string) : bool :=
  match value with
  | None => false
  | Some v => PyStr.nonempty v && negb (_is_env_ref v)
  end.

Definition credential_fields (creds : CredentialsConfig) : list (option string) :=
  [access_key_id creds; access_key_secret creds; api_token creds].

Definition explicit_missing (env : gmap string string) (creds : CredentialsConfig)
  : list string :=
  flat_map (field_missing env) (credential_fields creds).

Definition has_any_plain_credential (creds : CredentialsConfig) : bool :=
  existsb is_plain (credential_fields creds).

(** The [if / elif / else] on the lower-cased provider: the names required
    for [account], or the [ValueError] of the last branch. *)
Definition required_for (provider raw_provider account : string)
  : result (list string) :=
  if String.eqb provider "cloudflare" then
    Ok ["CERTMAN_CLOUDFLARE_" +:+ account +:+ "_API_TOKEN"]
  else if String.eqb provider "route53" then
    Ok ["CERTMAN_AWS_" +:+ account +:+ "_ACCESS_KEY_ID";
        "CERTMAN_AWS_" +:+ account +:+ "_SECRET_ACCESS_KEY";
        "CERTMAN_AWS_" +:+ account +:+ "_REGION"]
  else if String.eqb provider "aliyun" then
    Ok ["CERTMAN_ALIYUN_" +:+ account +:+ "_ACCESS_KEY_ID";
        "CERTMAN_ALIYUN_" +:+ account +:+ "_ACCESS_KEY_SECRET"]
  else Raise (ValueError ("unsupported dns_provider: " +:+ raw_provider)).

Definition _required_env_keys (entry : EntryConfig) (env : gmap string string)
  : result (list string) :=
  let provider := PyStr.lower (dns_provider entry) in
  let creds := credentials entry in
  let missing := explicit_missing env creds in
  if nonempty_list missing || has_any_plain_credential creds
  then Ok missing
  else
    match account_id entry with
    | None => Ok []
    | Some account =>
        if negb (PyStr.nonempty account) then Ok []
        else
          required ← required_for provider (dns_provider entry) account;
          Ok (filter (fun k => env_unset env k = true) required)
    end.

(** The loop of [validate_required_secrets]: [missing.extend(...)] per
    entry, the first exception ending it. *)
Fixpoint collect_missing (es : list EntryConfig) (env : gmap string string)
  (missing : list string) : result (list string) :=
  match es with
  | [] => Ok missing
  | entry :: es' =>
      ks ← _required_env_keys entry env;
      collect_missing es' env (missing ++ ks)%list
  end.

Definition validate_required_secrets (cfg : AppConfig) (env : gmap string string)
  : result unit :=
  missing ← collect_missing (entries cfg) env [];
  match missing with
  | [] => Ok tt
  | _ :: _ =>
      let missing_sorted := PyStr.join PyStr.nl (PyStr.sorted (remove_dups missing)) in
      Raise (ValueError ("Missing required env keys:" +:+ PyStr.nl +:+ missing_sorted))
  end.

End Config.

(** ** certman/providers.py *)

Module Providers.

Record AliyunCredentials : Type := {
  access_key_id : string;
  access_key_secret : string
}.

Definition _resolve_value (env : gmap string string) (value : string)
  : result string :=
  let value := PyStr.strip value in
  if PyStr.startswith value "${" && PyStr.endswith value "}" then
    let key := PyStr.strip (PyStr.slice_from_to_end_minus 2 1 value) in
    let resolved := env !! key in
    if negb (PyStr.truthy resolved) then
      Raise (ValueError ("missing env var for reference: " +:+ key))
    else Ok (PyStr.the resolved)
  else Ok value.

Definition aliyun_credentials_for_entry (env : gmap string string)
  (entry : Config.EntryConfig) : result AliyunCredentials :=
  let creds := Config.credentials entry in
  if PyStr.truthy (Config.access_key_id creds)
     && PyStr.truthy (Config.access_key_secret creds)
  then
    ak ← _resolve_value env (PyStr.the (Config.access_key_id creds));
    sk ← _resolve_value env (PyStr.the (Config.access_key_secret creds));
    Ok {| access_key_id := ak; access_key_secret := sk |}
  else if negb (PyStr.truthy (Config.account_id entry)) then
    Raise (ValueError "aliyun entry missing account_id or credentials")
  else
    let account := PyStr.the (Config.account_id entry) in
    let ak := env !! ("CERTMAN_ALIYUN_" +:+ account +:+ "_ACCESS_KEY_ID") in
    let sk := env !! ("CERTMAN_ALIYUN_" +:+ account +:+ "_ACCESS_KEY_SECRET") in
    if negb (PyStr.truthy ak) || negb (PyStr.truthy sk) then
      Raise (ValueError ("missing aliyun env keys for account_id=" +:+ account))
    else Ok {| access_key_id := PyStr.the ak; access_key_secret := PyStr.the sk |}.

End Providers.

(** ** The pydantic models of config.py: [model_dump] and [model_validate]

    [raw] is the untyped data [tomllib.loads] and [yaml.safe_load] return,
    and [model_dump] produces: null, booleans, integers, strings, lists and
    mappings (floats and dates are not represented). A mapping is an
    association list read by its first binding of a key. Validation follows
    pydantic's default (lax) mode with extra keys ignored; it stops at the
    first offending field and raises [ValidationError] for the model it was
    called on. *)

Module Schema.
Import Config.

Inductive raw : Type :=
| RNull
| RBool (b : bool)
| RInt (z : Z)
| RStr (s : string)
| RList (l : list raw)
| RDict (d : list (string * raw)).

Definition dict : Type := list (string * raw).

(** [d.get(k)] *)
Fixpoint dict_get (d : dict) (k : string) : option raw :=
  match d with
  | [] => None
  | (k', v) :: d' => if String.eqb k' k then Some v else dict_get d' k
  end.

(** [k in d] *)
Definition dict_mem (d : dict) (k : string) : bool :=
  match dict_get d k with
  | Some _ => true
  | None => false
  end.

(** [d.setdefault(k, v)] *)
Definition dict_setdefault (d : dict) (k : string) (v : raw) : dict :=
  if dict_mem d k then d else (d ++ [(k, v)])%list.

Definition invalid {A : Type} (model : string) : result A :=
  Raise (ValidationError model).

(** A field of type [str]; [dflt] is its default, [None] when required. *)
Definition str_field (model : string) (d : dict) (k : string)
  (dflt : option string) : result string :=
  match dict_get d k with
  | None => match dflt with Some v => Ok v | None => invalid model end
  | Some (RStr s) => Ok s
  | Some _ => invalid model
  end.

(** A field of type [str | None] with default [None]. *)
Definition opt_str_field (model : string) (d : dict) (k : string)
  : result (option string) :=
  match dict_get d k with
  | None | Some RNull => Ok None
  | Some (RStr s) => Ok (Some s)
  | Some _ => invalid model
  end.

Definition bool_of_str (s : string) : option bool :=
  let s := PyStr.lower s in
  if existsb (String.eqb s) ["1"; "on"; "t"; "true"; "y"; "yes"] then Some true
  else if existsb (String.eqb s) ["0"; "off"; "f"; "false"; "n"; "no"] then Some false
  else None.

(** A field of type [bool] with default [dflt]. *)
Definition bool_field (model : string) (d : dict) (k : string) (dflt : bool)
  : result bool :=
  match dict_get d k with
  | None => Ok dflt
  | Some (RBool b) => Ok b
  | Some (RInt 0) => Ok false
  | Some (RInt 1) => Ok true
  | Some (RStr s) =>
      match bool_of_str s with Some b => Ok b | None => invalid model end
  | Some _ => invalid model
  end.

Fixpoint str_items (model : string) (l : list raw) : result (list string) :=
  match l with
  | [] => Ok []
  | RStr s :: l' => ss ← str_items model l'; Ok (s :: ss)
  | _ :: _ => invalid model
  end.

(** A field of type [list[str]] with the empty list as default. *)
Definition str_list_field (model : string) (d : dict) (k : string)
  : result (list string) :=
  match dict_get d k with
  | None => Ok []
  | Some (RList l) => str_items model l
  | Some _ => invalid model
  end.

Definition GlobalConfig_dump (g : GlobalConfig) : raw :=
  RDict [("data_dir", RStr (data_dir g)); ("conf_dir", RStr (conf_dir g));
         ("run_dir", RStr (run_dir g)); ("log_dir", RStr (log_dir g));
         ("output_dir", RStr (output_dir g));
         ("letsencrypt_dir", RStr (letsencrypt_dir g));
         ("acme_server", RStr (acme_server g)); ("email", RStr (email g))].

Definition GlobalConfig_validate (model : string) (v : raw) : result GlobalConfig :=
  match v with
  | RDict d =>
      a ← str_field model d "data_dir" (Some "data");
      b ← str_field model d "conf_dir" (Some "conf");
      c ← str_field model d "run_dir" (Some "run");
      e ← str_field model d "log_dir" (Some "log");
      f ← str_field model d "output_dir" (Some "output");
      g ← str_field model d "letsencrypt_dir" (Some "letsencrypt");
      h ← str_field model d "acme_server" (Some "staging");
      i ← str_field model d "email" (Some "admin@example.com");
      Ok {| data_dir := a; conf_dir := b; run_dir := c; log_dir := e;
            output_dir := f; letsencrypt_dir := g; acme_server := h;
            email := i |}
  | _ => invalid model
  end.

Definition opt_dump (v : option string) : raw :=
  match v with
  | None => RNull
  | Some s => RStr s
  end.

Definition CredentialsConfig_dump (c : CredentialsConfig) : raw :=
  RDict [("access_key_id", opt_dump (access_key_id c));
         ("access_key_secret", opt_dump (access_key_secret c));
         ("api_token", opt_dump (api_token c))].

Definition CredentialsConfig_validate (model : string) (v : raw)
  : result CredentialsConfig :=
  match v with
  | RDict d =>
      a ← opt_str_field model d "access_key_id";
      b ← opt_str_field model d "access_key_secret";
      c ← opt_str_field model d "api_token";
      Ok {| access_key_id := a; access_key_secret := b; api_token := c |}
  | _ => invalid model
  end.

Definition EntryConfig_dump (e : EntryConfig) : raw :=
  RDict [("name", RStr (name e)); ("description", RStr (description e));
         ("primary_domain", RStr (primary_domain e));
         ("secondary_domains", RList (map RStr (secondary_domains e)));
         ("wildcard", RBool (wildcard e));
         ("dns_provider", RStr (dns_provider e));
         ("account_id", opt_dump (account_id e));
         ("credentials", CredentialsConfig_dump (credentials e))].

Definition EntryConfig_validate (model : string) (v : raw) : result EntryConfig :=
  match v with
  | RDict d =>
      a ← str_field model d "name" None;
      b ← str_field model d "description" (Some "");
      c ← str_field model d "primary_domain" None;
      s ← str_list_field model d "secondary_domains";
      w ← bool_field model d "wildcard" true;
      p ← str_field model d "dns_provider" None;
      i ← opt_str_field model d "account_id";
      k ← match dict_get d "credentials" with
          | None => Ok {| access_key_id := None; access_key_secret := None;
                          api_token := None |}
          | Some cv => CredentialsConfig_validate model cv
          end;
      Ok {| name := a; description := b; primary_domain := c;
            secondary_domains := s; wildcard := w; dns_provider := p;
            account_id := i; credentials := k |}
  | _ => invalid model
  end.

Fixpoint entries_validate (model : string) (l : list raw)
  : result (list EntryConfig) :=
  match l with
  | [] => Ok []
  | v :: l' =>
      e ← EntryConfig_validate model v;
      es ← entries_validate model l';
      Ok (e :: es)
  end.

(** [AppConfig.model_validate]: [global] (the alias of [global_]) is
    required, [entries] defaults to the empty list. *)
Definition AppConfig_validate (d : dict) : result AppConfig :=
  match dict_get d "global" with
  | None => invalid "AppConfig"
  | Some gv =>
      g ← GlobalConfig_validate "AppConfig" gv;
      es ← match dict_get d "entries" with
           | None => Ok []
           | Some (RList l) => entries_validate "AppConfig" l
           | Some _ => invalid "AppConfig"
           end;
      Ok {| global_ := g; entries := es |}
  end.

(** [GlobalOnlyConfig.model_validate] *)
Definition GlobalOnlyConfig_validate (d : dict) : result GlobalOnlyConfig :=
  match dict_get d "global" with
  | None => invalid "GlobalOnlyConfig"
  | Some gv =>
      g ← GlobalConfig_validate "GlobalOnlyConfig" gv;
      p ← str_field "GlobalOnlyConfig" d "scan_items_glob" (Some "item_*.toml");
      Ok {| go_global_ := g; scan_items_glob := p |}
  end.

End Schema.

(** ** certman/config_merge.py and [load_config] of config.py

    The configuration directory is a list of [file]s: the name of each (the
    last component of its path) and the mapping its text parses to, [None]
    when the parser of its format raises. Pattern matching of
    [pathlib.Path.glob] is the parameter [fnmatch] (pattern first). *)

Module ConfigMerge.
Import Config Schema.

Record file : Type := {
  f_name : string;
  f_doc : option dict
}.

(** Index of the last ["."] of a name, [str.rfind]. *)
Fixpoint rfind_dot (s : string) : option nat :=
  match s with
  | EmptyString => None
  | String c s' =>
      match rfind_dot s' with
      | Some i => Some (S i)
      | None => if Ascii.eqb c "." then Some 0%nat else None
      end
  end.

(** [PurePath.suffix]: from the last dot, unless the name starts or ends
    with it. *)
Definition suffix (nm : string) : string :=
  match rfind_dot nm with
  | Some i =>
      if (0 <? i)%nat && (i <? String.length nm - 1)%nat
      then String.substring i (String.length nm - i) nm else ""
  | None => ""
  end.

(** [PurePath.stem] *)
Definition stem (nm : string) : string :=
  match rfind_dot nm with
  | Some i =>
      if (0 <? i)%nat && (i <? String.length nm - 1)%nat
      then String.substring 0 i nm else nm
  | None => nm
  end.

Definition lookup_file (dir : list file) (nm : string) : option file :=
  find (fun f => String.eqb (f_name f) nm) dir.

(** [load_config_dict]: the parser is chosen by the lower-cased suffix. *)
Definition load_config_dict (f : file) : result dict :=
  let sfx := PyStr.lower (suffix (f_name f)) in
  if String.eqb sfx ".toml" || String.eqb sfx ".yaml" || String.eqb sfx ".yml"
  then match f_doc f with
       | Some d => Ok d
       | None => Raise (ParseError (f_name f))
       end
  else Raise (ValueError ("unsupported config format: " +:+ sfx)).

(** [load_config] *)
Definition load_config (dir : list file) (nm : string) : result AppConfig :=
  match lookup_file dir nm with
  | None => Raise (FileNotFoundError ("config file not found: " +:+ nm))
  | Some f =>
      let sfx := PyStr.lower (suffix (f_name f)) in
      if String.eqb sfx ".toml" || String.eqb sfx ".yaml" || String.eqb sfx ".yml"
      then match f_doc f with
           | Some d => AppConfig_validate d
           | None => Raise (ParseError (f_name f))
           end
      else Raise (ValueError ("unsupported config format: " +:+ sfx))
  end.

(** [GlobalOnlyConfig.model_validate(load_config_dict(global_config_path))] *)
Definition load_global_only (dir : list file) (nm : string)
  : result GlobalOnlyConfig :=
  match lookup_file dir nm with
  | None => Raise (FileNotFoundError nm)
  | Some f => d ← load_config_dict f; GlobalOnlyConfig_validate d
  end.

Definition _default_name_from_item (nm : string) : string :=
  let st := stem nm in
  if PyStr.startswith st "item_"
  then String.substring 5 (String.length st - 5) st else st.

Fixpoint insert_file (f : file) (l : list file) : list file :=
  match l with
  | [] => [f]
  | g :: l' =>
      if String.leb (f_name f) (f_name g) then f :: l else g :: insert_file f l'
  end.

(** [sorted(...)] on the paths of one directory: ascending by name. *)
Definition sorted_files (l : list file) : list file := foldr insert_file [] l.

Section WithGlob.
Variable fnmatch : string -> string -> bool.

(** [sorted(conf_dir.glob(scan_glob))] *)
Definition glob_sorted (dir : list file) (scan_glob : string) : list file :=
  sorted_files (filter (fun f => fnmatch scan_glob (f_name f) = true) dir).

(** The body of the [for item_path in ...] loop: the raw entries one
    item file adds to [merged_entries]. *)
Definition item_entries (global_name : string) (item : file) : result (list raw) :=
  if String.eqb (f_name item) global_name then Ok []
  else if PyStr.endswith (f_name item) ".example.toml" then Ok []
  else
    item_dict ← load_config_dict item;
    let default_name := _default_name_from_item (f_name item) in
    if dict_mem item_dict "entries" || dict_mem item_dict "global" then
      item_cfg ← AppConfig_validate item_dict;
      Ok (map EntryConfig_dump (entries item_cfg))
    else
      Ok [RDict (dict_setdefault item_dict "name" (RStr default_name))].

Fixpoint merge_items (global_name : string) (items : list file)
  (merged_entries : list raw) : result (list raw) :=
  match items with
  | [] => Ok merged_entries
  | item :: items' =>
      es ← item_entries global_name item;
      merge_items global_name items' (merged_entries ++ es)%list
  end.

Definition load_merged_config (dir : list file) (global_name : string)
  : result AppConfig :=
  base_cfg ← load_config dir global_name;
  global_only ← load_global_only dir global_name;
  let scan_glob := scan_items_glob global_only in
  merged_entries ←
    merge_items global_name (glob_sorted dir scan_glob)
      (map EntryConfig_dump (entries base_cfg));
  AppConfig_validate
    [("global", GlobalConfig_dump (global_ base_cfg));
     ("entries", RList merged_entries)].

End WithGlob.

End ConfigMerge.

(** ** certman/cli.py

    Commands run in [io]: they may raise, and they extend a trace of the
    effects that leave the process (credential files written, certbot
    invocations, exports). [typer.echo] and the JSON run log are not traced.
    The world outside is three parameters: [joinpath], the rendering of
    [pathlib]'s [/]; [cert_status], the certificate found at a path ([None]
    when the file does not exist, an existing file being taken to decode:
    [CliCheck] below is [check] without this); [subprocess_run], the return
    code and the captured output of a command given the trace so far. An
    export is one event, [export_entry] being taken to return. *)

Inductive event : Type :=
| EvWriteIni (path content : string)
| EvCertbot (cmd : list string)
| EvExport (live_dir out_dir : string) (overwrite : bool).

Definition io (A : Type) : Type := list event -> result A * list event.

#[global] Instance io_ret : MRet io := fun A a tr => (Ok a, tr).

#[global] Instance io_bind : MBind io := fun A B k m tr =>
  match m tr with
  | (Ok a, tr') => k a tr'
  | (Raise e, tr') => (Raise e, tr')
  end.

Definition io_raise {A : Type} (e : exn) : io A := fun tr => (Raise e, tr).

Definition io_lift {A : Type} (r : result A) : io A := fun tr => (r, tr).

Definition io_emit (ev : event) : io unit := fun tr => (Ok tt, (tr ++ [ev])%list).

(** [for x in xs: body(x)] *)
Fixpoint io_for {A : Type} (xs : list A) (body : A -> io unit) : io unit :=
  match xs with
  | [] => mret tt
  | x :: xs' => _ ← body x; io_for xs' body
  end.

Module Certs.

(** [CertStatus] with its property [days_left] evaluated at the time of
    the run, and [not_after.isoformat()]. *)
Record CertStatus : Type := {
  days_left : Z;
  not_after : string
}.

End Certs.

Module CertbotRunner.

Record CertbotPaths : Type := {
  config_dir : string;
  work_dir : string;
  logs_dir : string
}.

Record CertbotResult : Type := {
  cmd : list string;
  returncode : Z;
  stdout : string;
  stderr : string
}.

Definition ok (r : CertbotResult) : bool := returncode r =? 0.

(** [sub in s] *)
Fixpoint contains (s sub : string) : bool :=
  String.prefix sub s
  || match s with
     | EmptyString => false
     | String _ s' => contains s' sub
     end.

Definition is_admin_required_error (r : CertbotResult) : bool :=
  let msg := PyStr.lower (stderr r) in
  contains msg "administrative rights" || contains msg "administrator".

Section WithSubprocess.
Variable subprocess_run : list event -> list string -> Z * string * string.

Definition run_certbot (args : list string) (paths : CertbotPaths)
  (passthrough : bool) : io CertbotResult :=
  fun tr =>
    let cmd := ("certbot" :: args ++
                ["--config-dir"; config_dir paths;
                 "--work-dir"; work_dir paths;
                 "--logs-dir"; logs_dir paths;
                 "--non-interactive"])%list in
    let '(rc, out, err) := subprocess_run tr cmd in
    let tr' := (tr ++ [EvCertbot cmd])%list in
    if negb passthrough then
      (Ok {| cmd := cmd; returncode := rc; stdout := out; stderr := err |}, tr')
    else
      (Ok {| cmd := cmd; returncode := rc; stdout := ""; stderr := "" |}, tr').

End WithSubprocess.

End CertbotRunner.

Module Run.

Record Paths : Type := {
  data_dir : string;
  conf_dir : string;
  run_dir : string;
  log_dir : string;
  output_dir : string
}.

Record Runtime : Type := {
  paths : Paths;
  config : Config.AppConfig;
  env : gmap string string
}.

End Run.

Module Cli.
Import Config.

(** One round of the de-duplication loop of [_entry_domains], on the pair
    of [seen] and [unique]. *)
Definition dedup_step (st : gset string * list string) (d : string)
  : gset string * list string :=
  if decide (d ∈ st.1) then st else ({[d]} ∪ st.1, (st.2 ++ [d])%list).

Definition _entry_domains (entry : EntryConfig) : list string :=
  let domains := primary_domain entry :: secondary_domains entry in
  let domains :=
    if wildcard entry then (domains ++ ["*." +:+ primary_domain entry])%list
    else domains in
  (fold_left dedup_step domains (∅, [])).2.

(** An element of [results] in [check]: [r_days_left] and [r_not_after]
    are absent from the dictionary of a missing certificate. *)
Record check_result : Type := {
  r_entry : string;
  r_primary_domain : string;
  r_status : string;
  r_days_left : option Z;
  r_not_after : option string;
  r_cert_path : string
}.

(** An element of [fix_actions] in [check]. *)
Record fix_action : Type := {
  a_entry : string;
  a_action : string;
  a_force : bool;
  a_reason : string
}.

(** The [if / elif] on [days_left]: the state and its code. *)
Definition classify (days_left warn_days force_renew_days : Z) : string * Z :=
  if days_left <=? force_renew_days then ("force-renew", 20)
  else if days_left <=? warn_days then ("warn", 10)
  else ("ok", 0).

(** The planning loop under [if fix:]. *)
Definition plan_fix (results : list check_result) : list fix_action :=
  flat_map (fun r =>
    if String.eqb (r_status r) "missing" then
      [{| a_entry := r_entry r; a_action := "new"; a_force := true;
          a_reason := "missing" |}]
    else if String.eqb (r_status r) "force-renew" then
      [{| a_entry := r_entry r; a_action := "renew"; a_force := true;
          a_reason := "expires-soon" |}]
    else []) results.

(** [[e for e in entries if e.name == name]] *)
Definition named (nm : string) (es : list EntryConfig) : list EntryConfig :=
  filter (fun e => String.eqb (name e) nm = true) es.

Section WithWorld.
Variable joinpath : string -> string -> string.
Variable cert_status : string -> option Certs.CertStatus.
Variable subprocess_run : list event -> list string -> Z * string * string.

Definition letsencrypt_dir_of (runtime : Run.Runtime) : string :=
  joinpath (Run.run_dir (Run.paths runtime))
           (letsencrypt_dir (global_ (Run.config runtime))).

Definition certbot_paths (runtime : Run.Runtime) : CertbotRunner.CertbotPaths :=
  {| CertbotRunner.config_dir := letsencrypt_dir_of runtime;
     CertbotRunner.work_dir := joinpath (Run.run_dir (Run.paths runtime)) "work";
     CertbotRunner.logs_dir := Run.log_dir (Run.paths runtime) |}.

(** [write_aliyun_credentials_ini] *)
Definition write_aliyun_credentials_ini (path : string)
  (creds : Providers.AliyunCredentials) : io unit :=
  io_emit (EvWriteIni path
    ("dns_aliyun_access_key = " +:+ Providers.access_key_id creds +:+ PyStr.nl
     +:+ "dns_aliyun_access_key_secret = "
     +:+ Providers.access_key_secret creds +:+ PyStr.nl)).

Definition _prepare_aliyun_credentials_ini (runtime : Run.Runtime)
  (entry : EntryConfig) : io string :=
  creds ← io_lift (Providers.aliyun_credentials_for_entry (Run.env runtime) entry);
  let cred_dir := joinpath (Run.run_dir (Run.paths runtime)) "credentials" in
  let stem := if PyStr.truthy (account_id entry)
              then PyStr.the (account_id entry) else name entry in
  let cred_file := joinpath cred_dir ("aliyun_" +:+ stem +:+ ".ini") in
  _ ← write_aliyun_credentials_ini cred_file creds;
  mret cred_file.

(** The command [export]; copying is one [EvExport] per entry. *)
Definition export (runtime : Run.Runtime) (all : bool) (nm : option string)
  (overwrite : bool) : io unit :=
  if negb all && negb (PyStr.truthy nm) then
    io_raise (BadParameter "must provide --all or --name")
  else
    let targets := entries (Run.config runtime) in
    targets ←
      (if PyStr.truthy nm then
         let targets := named (PyStr.the nm) targets in
         if negb (nonempty_list targets) then
           io_raise (BadParameter ("entry not found: " +:+ PyStr.the nm))
         else mret targets
       else mret targets);
    io_for targets (fun entry =>
      let live_dir :=
        joinpath (joinpath (letsencrypt_dir_of runtime) "live")
                 (primary_domain entry) in
      let out_dir := joinpath (Run.output_dir (Run.paths runtime)) (name entry) in
      io_emit (EvExport live_dir out_dir overwrite)).

(** The exits of [new] and [renew] after a failed certbot run. *)
Definition fail_exit (r : CertbotRunner.CertbotResult) : exn :=
  if CertbotRunner.is_admin_required_error r then Exit 2 else Exit 1.

(** The command [new]. *)
Definition new (runtime : Run.Runtime) (nm : string)
  (force export_ verbose : bool) : io unit :=
  match named nm (entries (Run.config runtime)) with
  | [] => io_raise (BadParameter ("entry not found: " +:+ nm))
  | entry :: _ =>
      let provider := PyStr.lower (dns_provider entry) in
      if negb (String.eqb provider "aliyun") then
        io_raise (BadParameter
          ("unsupported dns_provider for now: " +:+ dns_provider entry))
      else
        cred_file ← _prepare_aliyun_credentials_ini runtime entry;
        let domains := _entry_domains entry in
        let args :=
          (["certonly"; "--authenticator"; "dns-aliyun";
            "--dns-aliyun-credentials"; cred_file; "--agree-tos";
            "--email"; email (global_ (Run.config runtime))]
           ++ (if String.eqb (acme_server (global_ (Run.config runtime))) "staging"
               then ["--test-cert"] else [])
           ++ (if force then ["--force-renewal"] else [])
           ++ flat_map (fun d => ["-d"; d]) domains)%list in
        result ← CertbotRunner.run_certbot subprocess_run args
                   (certbot_paths runtime) verbose;
        if negb (CertbotRunner.ok result) then io_raise (fail_exit result)
        else if export_ then export runtime false (Some nm) true
        else mret tt
  end.

(** The command [renew]. *)
Definition renew (runtime : Run.Runtime) (all : bool) (nm : option string)
  (force dry_run export_ verbose : bool) : io unit :=
  if negb all && negb (PyStr.truthy nm) then
    io_raise (BadParameter "must provide --all or --name")
  else
    _ ← (if all then
           io_for (entries (Run.config runtime)) (fun entry =>
             _ ← _prepare_aliyun_credentials_ini runtime entry; mret tt)
         else mret tt);
    target_args ←
      (if PyStr.truthy nm && negb all then
         match named (PyStr.the nm) (entries (Run.config runtime)) with
         | [] => io_raise (BadParameter ("entry not found: " +:+ PyStr.the nm))
         | target :: _ =>
             _ ← _prepare_aliyun_credentials_ini runtime target;
             mret ["--cert-name"; primary_domain target]
         end
       else mret []);
    let args :=
      (["renew"] ++ target_args
       ++ (if force then ["--force-renewal"] else [])
       ++ (if dry_run then ["--dry-run"] else []))%list in
    result ← CertbotRunner.run_certbot subprocess_run args
               (certbot_paths runtime) verbose;
    if negb (CertbotRunner.ok result) then io_raise (fail_exit result)
    else if export_ && negb dry_run then
      if PyStr.truthy nm && negb all then export runtime false nm true
      else export runtime true None true
    else mret tt.

Definition cert_path_of (runtime : Run.Runtime) (entry : EntryConfig) : string :=
  joinpath (joinpath (joinpath (letsencrypt_dir_of runtime) "live")
                     (primary_domain entry)) "cert.pem".

(** The body of the loop [for entry in targets] of [check]: the result
    appended for [entry] and the code it is weighed with. *)
Definition check_entry (runtime : Run.Runtime) (warn_days force_renew_days : Z)
  (entry : EntryConfig) : check_result * Z :=
  let cert_path := cert_path_of runtime entry in
  match cert_status cert_path with
  | None =>
      ({| r_entry := name entry; r_primary_domain := primary_domain entry;
          r_status := "missing"; r_days_left := None; r_not_after := None;
          r_cert_path := cert_path |}, 30)
  | Some status =>
      let days_left := Certs.days_left status in
      let sc := classify days_left warn_days force_renew_days in
      ({| r_entry := name entry; r_primary_domain := primary_domain entry;
          r_status := sc.1; r_days_left := Some days_left;
          r_not_after := Some (Certs.not_after status);
          r_cert_path := cert_path |}, sc.2)
  end.

(** The loop itself, from the current [results] and [worst_code]. *)
Fixpoint evaluate (runtime : Run.Runtime) (warn_days force_renew_days : Z)
  (targets : list EntryConfig) (results : list check_result) (worst_code : Z)
  : list check_result * Z :=
  match targets with
  | [] => (results, worst_code)
  | entry :: targets' =>
      let rc := check_entry runtime warn_days force_renew_days entry in
      evaluate runtime warn_days force_renew_days targets'
        (results ++ [rc.1])%list (Z.max worst_code rc.2)
  end.

(** The body of the loop [for action in fix_actions]. [check] calls the
    command functions directly and leaves [verbose] (and, for [renew],
    [dry_run]) to their defaults, which are then the [typer.Option(...)]
    objects themselves: truthy values. *)
Definition execute_action (runtime : Run.Runtime) (action : fix_action) : io unit :=
  if String.eqb (a_action action) "new" then
    new runtime (a_entry action) true true true
  else if String.eqb (a_action action) "renew" then
    renew runtime false (Some (a_entry action)) true true true true
  else mret tt.

(** The command [check]; it ends by raising [typer.Exit]. *)
Definition check (runtime : Run.Runtime) (warn_days force_renew_days : Z)
  (nm : option string) (fix_ : bool) : io unit :=
  targets ←
    (if PyStr.truthy nm then
       let targets := named (PyStr.the nm) (entries (Run.config runtime)) in
       if negb (nonempty_list targets) then
         io_raise (BadParameter ("entry not found: " +:+ PyStr.the nm))
       else mret targets
     else mret (entries (Run.config runtime)));
  let rw := evaluate runtime warn_days force_renew_days targets [] 0 in
  _ ← (if fix_ then io_for (plan_fix rw.1) (execute_action runtime) else mret tt);
  io_raise (Exit rw.2).

End WithWorld.

End Cli.

(** ** The command [check] on certificate files that may not decode

    [Cli.check] reads certificates through [cert_status], for which a file
    that exists decodes. Here the world is [cert_files]: [None] at a path
    where [cert_path.exists()] is false, and otherwise what
    [get_cert_status(cert_path)] does on the file there, which returns a
    [CertStatus] or raises ([ssl.SSLError] on a file that holds no
    certificate). The exception is not caught: it ends the loop, and the
    command with it. *)

Module CliCheck.
Import Config Cli.

(** The certificates [Cli.check] sees in such a world. *)
Definition decoded (cert_files : string -> option (result Certs.CertStatus))
  (path : string) : option Certs.CertStatus :=
  match cert_files path with
  | Some (Ok status) => Some status
  | _ => None
  end.

(** [get_cert_status] does not raise on the file at the path, if any. *)
Definition decodes (cert_files : string -> option (result Certs.CertStatus))
  (path : string) : Prop :=
  ∀ e, cert_files path ≠ Some (Raise e).

Section WithFiles.
Variable joinpath : string -> string -> string.
Variable cert_files : string -> option (result Certs.CertStatus).
Variable subprocess_run : list event -> list string -> Z * string * string.

(** The body of the loop [for entry in targets] of [check]. *)
Definition check_entry (runtime : Run.Runtime) (warn_days force_renew_days : Z)
  (entry : EntryConfig) : result (check_result * Z) :=
  let cert_path := cert_path_of joinpath runtime entry in
  match cert_files cert_path with
  | None =>
      Ok ({| r_entry := name entry; r_primary_domain := primary_domain entry;
             r_status := "missing"; r_days_left := None; r_not_after := None;
             r_cert_path := cert_path |}, 30)
  | Some get_cert_status =>
      status ← get_cert_status;
      let days_left := Certs.days_left status in
      let sc := classify days_left warn_days force_renew_days in
      Ok ({| r_entry := name entry; r_primary_domain := primary_domain entry;
             r_status := sc.1; r_days_left := Some days_left;
             r_not_after := Some (Certs.not_after status);
             r_cert_path := cert_path |}, sc.2)
  end.

(** The loop itself, from the current [results] and [worst_code]. *)
Fixpoint evaluate (runtime : Run.Runtime) (warn_days force_renew_days : Z)
  (targets : list EntryConfig) (results : list check_result) (worst_code : Z)
  : result (list check_result * Z) :=
  match targets with
  | [] => Ok (results, worst_code)
  | entry :: targets' =>
      rc ← check_entry runtime warn_days force_renew_days entry;
      evaluate runtime warn_days force_renew_days targets'
        (results ++ [rc.1])%list (Z.max worst_code rc.2)
  end.

(** The command [check]; when nothing raises before, it ends by raising
    [typer.Exit]. *)
Definition check (runtime : Run.Runtime) (warn_days force_renew_days : Z)
  (nm : option string) (fix_ : bool) : io unit :=
  targets ←
    (if PyStr.truthy nm then
       let targets := named (PyStr.the nm) (entries (Run.config runtime)) in
       if negb (nonempty_list targets) then
         io_raise (BadParameter ("entry not found: " +:+ PyStr.the nm))
       else mret targets
     else mret (entries (Run.config runtime)));
  rw ← io_lift (evaluate runtime warn_days force_renew_days targets [] 0);
  _ ← (if fix_ then
         io_for (plan_fix rw.1) (execute_action joinpath subprocess_run runtime)
       else mret tt);
  io_raise (Exit rw.2).

End WithFiles.

End CliCheck.

(** ** Notions of the specification

    Notions written from the words of the specification, against which
    the functions above are compared. *)

Module Spec.

(** A list with its duplicates removed, each element kept at its first
    occurrence. *)
Fixpoint first_occurrences (l : list string) : list string :=
  match l with
  | [] => []
  | x :: l' => x :: filter (λ y, y ≠ x) (first_occurrences l')
  end.

(** The domains of an entry before de-duplication: the primary domain,
    the secondary domains, and the wildcard domain when the flag is set. *)
Definition candidate_domains (entry : Config.EntryConfig) : list string :=
  (Config.primary_domain entry :: Config.secondary_domains entry
   ++ (if Config.wildcard entry then ["*." +:+ Config.primary_domain entry]
       else []))%list.

(** The exit weight of a classification:
    ok(0) < warn(10) < force-renew(20) < missing(30). *)
Definition weight (status : string) : Z :=
  if String.eqb status "missing" then 30
  else if String.eqb status "force-renew" then 20
  else if String.eqb status "warn" then 10
  else 0.

(** The maximum of a list of weights, 0 for the empty list. *)
Definition worst (ws : list Z) : Z := foldr Z.max 0 ws.

(** The known values of [dns_provider]. *)
Definition known_provider (p : string) : Prop :=
  p ∈ ["cloudflare"; "route53"; "aliyun"].

(** The environment names of an account, by the naming convention
    CERTMAN_<PROVIDER>_<account_id>_<FIELD> with the fields of each
    provider; the provider part of a route53 account is AWS. *)
Definition provider_keys (provider account : string) : list string :=
  if String.eqb provider "cloudflare" then
    ["CERTMAN_CLOUDFLARE_" +:+ account +:+ "_API_TOKEN"]
  else if String.eqb provider "route53" then
    ["CERTMAN_AWS_" +:+ account +:+ "_ACCESS_KEY_ID";
     "CERTMAN_AWS_" +:+ account +:+ "_SECRET_ACCESS_KEY";
     "CERTMAN_AWS_" +:+ account +:+ "_REGION"]
  else if String.eqb provider "aliyun" then
    ["CERTMAN_ALIYUN_" +:+ account +:+ "_ACCESS_KEY_ID";
     "CERTMAN_ALIYUN_" +:+ account +:+ "_ACCESS_KEY_SECRET"]
  else [].

(** A name is unset or empty in the environment. *)
Definition unset (env : gmap string string) (k : string) : Prop :=
  env !! k = None ∨ env !! k = Some "".

#[global] Instance unset_dec (env : gmap string string) (k : string)
  : Decision (unset env k).
Proof. unfold unset. apply _. Defined.

#[global] Typeclasses Opaque unset.

(** The name a credential value refers to: a value that, stripped of
    surrounding whitespace, starts with "${" and ends with "}" refers to
    the stripped text between them; any other value is a literal. *)
Definition reference_name (value : string) : option string :=
  let v := PyStr.strip value in
  if PyStr.startswith v "${" && PyStr.endswith v "}"
  then Some (PyStr.strip (PyStr.slice_from_to_end_minus 2 1 v))
  else None.


(** The three credential fields of an entry. *)
Definition fields (entry : Config.EntryConfig) : list (option string) :=
  [Config.access_key_id (Config.credentials entry);
   Config.access_key_secret (Config.credentials entry);
   Config.api_token (Config.credentials entry)].

(** A name that a credential field of the entry refers to, the field being
    "${" followed by a non-empty text and "}" and the name that text
    without its surrounding whitespace, and that is unset or empty in the
    environment. *)
Definition missing_reference (env : gmap string string)
  (entry : Config.EntryConfig) (name : string) : Prop :=
  ∃ k, k ≠ "" ∧ Some ("${" +:+ k +:+ "}") ∈ fields entry
       ∧ name = PyStr.strip k ∧ unset env name.

(** Resolution of one credential value: a literal resolves to itself
    without its surrounding whitespace, a reference to the non-empty value
    of its variable, and fails when the variable is unset or empty. *)
Inductive field_resolves (env : gmap string string) (value : string)
  : result string → Prop :=
| resolves_literal :
    reference_name value = None →
    field_resolves env value (Ok (PyStr.strip value))
| resolves_reference (k r : string) :
    reference_name value = Some k → env !! k = Some r → r ≠ "" →
    field_resolves env value (Ok r)
| resolves_missing (k : string) :
    reference_name value = Some k → unset env k →
    field_resolves env value
      (Raise (ValueError ("missing env var for reference: " +:+ k))).

(** Both the access-key id and the secret of the entry are populated. *)
Definition explicit_pair (entry : Config.EntryConfig) (kid ks : string) : Prop :=
  Config.access_key_id (Config.credentials entry) = Some kid ∧ kid ≠ ""
  ∧ Config.access_key_secret (Config.credentials entry) = Some ks ∧ ks ≠ "".

(** The precedence of the credential resolver. *)
Inductive resolves (env : gmap string string) (entry : Config.EntryConfig)
  : result Providers.AliyunCredentials → Prop :=
| explicit_ok (kid ks a s : string) :
    explicit_pair entry kid ks →
    field_resolves env kid (Ok a) → field_resolves env ks (Ok s) →
    resolves env entry
      (Ok {| Providers.access_key_id := a; Providers.access_key_secret := s |})
| explicit_id_fails (kid ks : string) (e : exn) :
    explicit_pair entry kid ks →
    field_resolves env kid (Raise e) →
    resolves env entry (Raise e)
| explicit_secret_fails (kid ks a : string) (e : exn) :
    explicit_pair entry kid ks →
    field_resolves env kid (Ok a) → field_resolves env ks (Raise e) →
    resolves env entry (Raise e)
| account_ok (account a s : string) :
    (∀ kid ks, ¬ explicit_pair entry kid ks) →
    Config.account_id entry = Some account → account ≠ "" →
    env !! ("CERTMAN_ALIYUN_" +:+ account +:+ "_ACCESS_KEY_ID") = Some a → a ≠ "" →
    env !! ("CERTMAN_ALIYUN_" +:+ account +:+ "_ACCESS_KEY_SECRET") = Some s → s ≠ "" →
    resolves env entry
      (Ok {| Providers.access_key_id := a; Providers.access_key_secret := s |})
| account_missing (account : string) :
    (∀ kid ks, ¬ explicit_pair entry kid ks) →
    Config.account_id entry = Some account → account ≠ "" →
    unset env ("CERTMAN_ALIYUN_" +:+ account +:+ "_ACCESS_KEY_ID")
    ∨ unset env ("CERTMAN_ALIYUN_" +:+ account +:+ "_ACCESS_KEY_SECRET") →
    resolves env entry
      (Raise (ValueError ("missing aliyun env keys for account_id=" +:+ account)))
| unconfigured :
    (∀ kid ks, ¬ explicit_pair entry kid ks) →
    Config.account_id entry = None ∨ Config.account_id entry = Some "" →
    resolves env entry
      (Raise (ValueError "aliyun entry missing account_id or credentials")).

End Spec.

(** ** Concrete configurations and worlds *)

Module Examples.
Import Config.

Definition joinpath (a b : string) : string := a +:+ "/" +:+ b.

Definition global_defaults : GlobalConfig :=
  {| data_dir := "data"; conf_dir := "conf"; run_dir := "run";
     log_dir := "log"; output_dir := "output";
     letsencrypt_dir := "letsencrypt"; acme_server := "staging";
     email := "admin@example.com" |}.

Definition global_ops : GlobalConfig :=
  {| data_dir := "data"; conf_dir := "conf"; run_dir := "run";
     log_dir := "log"; output_dir := "output";
     letsencrypt_dir := "letsencrypt"; acme_server := "staging";
     email := "ops@a.test" |}.

Definition no_credentials : CredentialsConfig :=
  {| access_key_id := None; access_key_secret := None; api_token := None |}.

Definition literal_credentials : CredentialsConfig :=
  {| access_key_id := Some "AK"; access_key_secret := Some "SK";
     api_token := None |}.

(** An entry named [nm] for the domain [nm.test]. *)
Definition entry (nm provider : string) (account : option string)
  (creds : CredentialsConfig) : EntryConfig :=
  {| name := nm; description := ""; primary_domain := nm +:+ ".test";
     secondary_domains := []; wildcard := true; dns_provider := provider;
     account_id := account; credentials := creds |}.

Definition entry_a : EntryConfig := entry "a" "aliyun" None literal_credentials.
Definition entry_b : EntryConfig := entry "b" "aliyun" None literal_credentials.

(** An account id and nothing else, the provider in mixed case. *)
Definition entry_account : EntryConfig :=
  entry "ops" "Aliyun" (Some "acc") no_credentials.

(** An account id and a reference. *)
Definition entry_reference : EntryConfig :=
  entry "ref" "aliyun" (Some "acc")
    {| access_key_id := Some "${AK_VAR}"; access_key_secret := None;
       api_token := None |}.

(** A literal access-key id with a leading space. *)
Definition entry_spaced : EntryConfig :=
  entry "sp" "aliyun" None
    {| access_key_id := Some " AK"; access_key_secret := Some "SK";
       api_token := None |}.

(** An unknown provider, with and without an account id. *)
Definition entry_unknown_account : EntryConfig :=
  entry "u" "gandi" (Some "acc") no_credentials.
Definition entry_unknown_template : EntryConfig :=
  entry "t" "gandi" None no_credentials.

Definition config_of (es : list EntryConfig) : AppConfig :=
  {| global_ := global_defaults; entries := es |}.

Definition runtime_of (es : list EntryConfig) : Run.Runtime :=
  {| Run.paths := {| Run.data_dir := "data"; Run.conf_dir := "data/conf";
                     Run.run_dir := "data/run"; Run.log_dir := "data/log";
                     Run.output_dir := "data/output" |};
     Run.config := config_of es;
     Run.env := ∅ |}.

Definition runtime_ab : Run.Runtime := runtime_of [entry_a; entry_b].

(** No certificate has been issued yet. *)
Definition no_certs (path : string) : option Certs.CertStatus := None.

(** Every certificate expires in five days. *)
Definition certs_in_5_days (path : string) : option Certs.CertStatus :=
  Some {| Certs.days_left := 5; Certs.not_after := "2026-11-09T00:00:00+00:00" |}.

(** certbot exits with code 1 whatever it is asked. *)
Definition certbot_fails (tr : list event) (cmd : list string)
  : Z * string * string := (1, "", "").

(** A matcher for the default pattern [item_*.toml] only. *)
Definition fnmatch_items (pattern nm : string) : bool :=
  String.eqb pattern "item_*.toml"
  && PyStr.startswith nm "item_" && PyStr.endswith nm ".toml".

(** A configuration directory holding the global file alone. *)
Definition dir_global_only : list ConfigMerge.file :=
  [{| ConfigMerge.f_name := "config.toml";
      ConfigMerge.f_doc :=
        Some [("global", Schema.RDict [("email", Schema.RStr "ops@a.test")]);
              ("entries",
               Schema.RList
                 [Schema.RDict [("name", Schema.RStr "a");
                                ("primary_domain", Schema.RStr "a.test");
                                ("dns_provider", Schema.RStr "aliyun")];
                  Schema.RDict [("name", Schema.RStr "b");
                                ("primary_domain", Schema.RStr "b.test");
                                ("dns_provider", Schema.RStr "aliyun");
                                ("wildcard", Schema.RBool false)]])] |}].

End Examples.

(** ** certman/runtime_logging.py

    The timestamp [datetime.now().strftime(...)] is the parameter [ts]. *)

Module RuntimeLogging.

(** [str.isalnum] on one character of the range U+0000..U+00FF. *)
Definition isalnum (c : ascii) : bool :=
  let n := nat_of_ascii c in
  let between a b := (a <=? n)%nat && (n <=? b)%nat in
  (between 48 57 || between 65 90 || between 97 122 || (n =? 170)
   || between 178 179 || (n =? 181) || between 185 186 || between 188 190
   || between 192 214 || between 216 246 || between 248 255)%nat.

(** One character of [safe_cmd]. *)
Definition safe_char (ch : ascii) : ascii :=
  if isalnum ch || Ascii.eqb ch "-" || Ascii.eqb ch "_" then ch else "_"%char.

(** The generator expression joined into [safe_cmd]. *)
Fixpoint safe_cmd (command : string) : string :=
  match command with
  | EmptyString => EmptyString
  | String ch command' => String (safe_char ch) (safe_cmd command')
  end.

(** The last component of the path [new_run_logfile] returns. *)
Definition run_logfile_name (ts command : string) : string :=
  ts +:+ "_" +:+ safe_cmd command +:+ ".log".

Definition new_run_logfile (joinpath : string -> string -> string)
  (log_dir ts command : string) : string :=
  joinpath log_dir (run_logfile_name ts command).

End RuntimeLogging.

(** ** certman/logging_.py

    A [datetime] is its number of microseconds since [datetime.min]; [now]
    is [datetime.now()]. The log directory is [None] when it does not
    exist, and otherwise the files [glob] goes through, in its order: the
    name of each, the [datetime] of its modification time ([None] when
    [path.stat()] raises [OSError]) and whether [unlink] succeeds on it. The
    pattern is matched the POSIX way, a name matching when it ends with
    [.log]. *)

Module Logging.

Record log_file : Type := {
  lf_name : string;
  lf_mtime : option Z;
  lf_unlink : bool
}.

(** [datetime.max], in microseconds since [datetime.min]. *)
Definition datetime_max : Z := 3652059 * 86400000000 - 1.

(** [datetime.now() - timedelta(days=keep_days)], [None] when either the
    [timedelta] or the subtraction raises [OverflowError]. *)
Definition cutoff_of (now keep_days : Z) : option Z :=
  if Z.abs keep_days <=? 999999999 then
    let cutoff := now - keep_days * 86400000000 in
    if (0 <=? cutoff) && (cutoff <=? datetime_max) then Some cutoff else None
  else None.

(** The file is removed by the body of the loop. *)
Definition removes (cutoff : Z) (f : log_file) : bool :=
  PyStr.endswith (lf_name f) ".log"
  && match lf_mtime f with
     | None => false
     | Some mtime => (mtime <? cutoff) && lf_unlink f
     end.

(** The loop [for path in log_dir.glob("*.log")] from the current count:
    the final count and the files left in the directory. *)
Fixpoint sweep (cutoff : Z) (files : list log_file) (removed : Z)
  : Z * list log_file :=
  match files with
  | [] => (removed, [])
  | f :: files' =>
      if removes cutoff f then sweep cutoff files' (removed + 1)
      else let r := sweep cutoff files' removed in (r.1, f :: r.2)
  end.

(** [cleanup_logs]: [None] for the [OverflowError] of the first line, and
    otherwise the number returned with the directory as it is left. *)
Definition cleanup_logs (now : Z) (log_dir : option (list log_file))
  (keep_days : Z) : option (Z * option (list log_file)) :=
  match cutoff_of now keep_days with
  | None => None
  | Some cutoff =>
      match log_dir with
      | None => Some (0, None)
      | Some files =>
          let r := sweep cutoff files 0 in Some (r.1, Some r.2)
      end
  end.

End Logging.

(** ** More concrete inputs *)

Module MoreExamples.
Import Config.

(** Both credentials given as references. *)
Definition entry_two_references : EntryConfig :=
  Examples.entry "refs" "aliyun" None
    {| access_key_id := Some "${AK_VAR}"; access_key_secret := Some "${SK_VAR}";
       api_token := None |}.

Definition env_two_references : gmap string string :=
  <["AK_VAR" := "ak"]> (<["SK_VAR" := "sk"]> ∅).

Definition env_account : gmap string string :=
  <["CERTMAN_ALIYUN_acc_ACCESS_KEY_ID" := "ak"]>
    (<["CERTMAN_ALIYUN_acc_ACCESS_KEY_SECRET" := "sk"]> ∅).

(** An entry of a provider [new] does not support. *)
Definition entry_cloudflare : EntryConfig :=
  Examples.entry "cf" "cloudflare" (Some "acc") Examples.no_credentials.

(** An aliyun entry with neither credentials nor an account id. *)
Definition entry_unconfigured : EntryConfig :=
  Examples.entry "nc" "aliyun" None Examples.no_credentials.

(** A renew action of the fix flow, for the entry [a]. *)
Definition action_renew : Cli.fix_action :=
  {| Cli.a_entry := "a"; Cli.a_action := "renew"; Cli.a_force := true;
     Cli.a_reason := "expires-soon" |}.

(** certbot fails and complains in capital letters. *)
Definition result_admin : CertbotRunner.CertbotResult :=
  {| CertbotRunner.cmd := ["certbot"]; CertbotRunner.returncode := 1;
     CertbotRunner.stdout := "";
     CertbotRunner.stderr := "Error: run as ADMINISTRATOR please" |}.

(** A single-entry item file without a name. *)
Definition item_foo : ConfigMerge.file :=
  {| ConfigMerge.f_name := "item_foo.toml";
     ConfigMerge.f_doc :=
       Some [("primary_domain", Schema.RStr "a.test");
             ("dns_provider", Schema.RStr "cloudflare")] |}.

(** A log directory: an old run log, a recent one, and an old file that is
    no log. Times are in microseconds. *)
Definition day : Z := 86400000000.

Definition log_files : list Logging.log_file :=
  [{| Logging.lf_name := "20260101-000000_check.log";
      Logging.lf_mtime := Some (739000 * day); Logging.lf_unlink := true |};
   {| Logging.lf_name := "20261101-000000_check.log";
      Logging.lf_mtime := Some (739990 * day); Logging.lf_unlink := true |};
   {| Logging.lf_name := "notes.txt";
      Logging.lf_mtime := Some (739000 * day); Logging.lf_unlink := true |}].

Definition log_now : Z := 740000 * day.

(** The directory of the global file with that item file next to it. *)
Definition dir_with_item : list ConfigMerge.file :=
  (Examples.dir_global_only ++ [item_foo])%list.

(** What is left of [log_files] after a cleanup keeping thirty days. *)
Definition log_files_left : list Logging.log_file :=
  [{| Logging.lf_name := "20261101-000000_check.log";
      Logging.lf_mtime := Some (739990 * day); Logging.lf_unlink := true |};
   {| Logging.lf_name := "notes.txt";
      Logging.lf_mtime := Some (739000 * day); Logging.lf_unlink := true |}].


(** The variable of [Examples.entry_reference] is set. *)
Definition env_reference : gmap string string := <["AK_VAR" := "ak"]> ∅.

(** The certificate of [a.test] expires in twenty days; there is no other
    certificate. *)
Definition cert_of_a_only (path : string) : option (result Certs.CertStatus) :=
  if String.eqb path "data/run/letsencrypt/live/a.test/cert.pem" then
    Some (Ok {| Certs.days_left := 20;
                Certs.not_after := "2026-11-25T00:00:00+00:00" |})
  else None.

(** No certificate file exists. *)
Definition no_cert_files (path : string) : option (result Certs.CertStatus) :=
  None.

(** The file of [b.test] exists and holds no certificate. *)
Definition cert_of_b_broken (path : string) : option (result Certs.CertStatus) :=
  if String.eqb path "data/run/letsencrypt/live/b.test/cert.pem" then
    Some (Raise (SSLError "Error decoding PEM-encoded file"))
  else None.

End MoreExamples.

(** * Properties *)

(** ** The domain list of an entry *)

Section EntryDomains.
Import Config Cli Spec.

Lemma first_occurrences_elem (l : list string) (x : string) :
  x ∈ first_occurrences l ↔ x ∈ l.
Proof.
  induction l as [|a l IH]; simpl; [done|].
  rewrite !elem_of_cons, list_elem_of_filter, IH.
  destruct (decide (x = a)); naive_solver.
Qed.

Lemma first_occurrences_NoDup (l : list string) : NoDup (first_occurrences l).
Proof.
  induction l as [|a l IH]; simpl; constructor.
  - rewrite list_elem_of_filter. naive_solver.
  - by apply NoDup_filter.
Qed.

(** The loop of [_entry_domains], started from any [seen] that holds the
    elements of [unique], appends the first occurrences not yet seen. *)
Lemma dedup_loop (l : list string) :
  ∀ (seen : gset string) (unique : list string),
    (∀ x, x ∈ seen ↔ x ∈ unique) →
    (fold_left dedup_step l (seen, unique)).2
    = (unique ++ filter (λ y, y ∉ unique) (first_occurrences l))%list.
Proof.
  induction l as [|a l IH]; intros seen unique Hseen; simpl.
  - by rewrite app_nil_r.
  - unfold dedup_step at 2; simpl. destruct (decide (a ∈ seen)) as [Hin|Hnin].
    + rewrite (IH _ _ Hseen). f_equal.
      rewrite filter_cons_False by (apply Hseen in Hin; tauto).
      rewrite list_filter_filter. apply list_filter_iff.
      intros y. apply Hseen in Hin. naive_solver.
    + rewrite IH by (intros x; rewrite elem_of_union, elem_of_singleton,
                       elem_of_app, list_elem_of_singleton, Hseen; tauto).
      rewrite filter_cons_True by (rewrite <- Hseen; done).
      rewrite <- app_assoc. simpl. do 2 f_equal.
      rewrite list_filter_filter. apply list_filter_iff.
      intros y. rewrite elem_of_app, list_elem_of_singleton. tauto.
  Qed.

Lemma filter_not_in_nil (l : list string) : filter (λ y, y ∉ []) l = l.
Proof.
  induction l as [|a l IH]; [done|].
  rewrite filter_cons_True by apply not_elem_of_nil. by rewrite IH.
Qed.

(** C9. The domain list of an entry is the primary domain, then the
    secondary domains in their order, then the wildcard domain
    [*.primary] when the flag is set, with duplicates removed at their
    later occurrences; it starts with the primary domain, has no
    duplicate and holds exactly the candidates. *)
Theorem entry_domains_first_occurrences (entry : EntryConfig) :
  _entry_domains entry = first_occurrences (candidate_domains entry)
  ∧ head (_entry_domains entry) = Some (primary_domain entry)
  ∧ NoDup (_entry_domains entry)
  ∧ ∀ d, d ∈ _entry_domains entry ↔ d ∈ candidate_domains entry.
Proof.
  assert (Heq : _entry_domains entry = first_occurrences (candidate_domains entry)).
  { unfold _entry_domains, candidate_domains.
    rewrite dedup_loop by set_solver. simpl app at 1.
    rewrite filter_not_in_nil. by destruct (wildcard entry); rewrite ?app_nil_r. }
  rewrite Heq. repeat split.
  - apply first_occurrences_NoDup.
  - by apply first_occurrences_elem.
  - by apply first_occurrences_elem.
Qed.

End EntryDomains.

(** ** The check command: classification and exit code *)

Section CheckExitCode.
Import Config Cli Spec.

Variable joinpath : string -> string -> string.
Variable cert_status : string -> option Certs.CertStatus.
Variable subprocess_run : list event -> list string -> Z * string * string.

Lemma classify_weight (d w f : Z) : (classify d w f).2 = weight (classify d w f).1.
Proof. unfold classify. by repeat case_match. Qed.

(** The code an entry is weighed with is the weight of its status. *)
Lemma check_entry_weight (runtime : Run.Runtime) (w f : Z) (entry : EntryConfig) :
  (check_entry joinpath cert_status runtime w f entry).2
  = weight (r_status (check_entry joinpath cert_status runtime w f entry).1).
Proof.
  unfold check_entry. destruct (cert_status _); simpl; [|done].
  apply classify_weight.
Qed.

Lemma worst_nonneg (ws : list Z) : 0 <= worst ws.
Proof. induction ws; simpl; lia. Qed.

(** The loop from any accumulator: results are appended in the order of
    the targets and the code is the maximum met so far. *)
Lemma evaluate_acc (runtime : Run.Runtime) (w f : Z) (targets : list EntryConfig) :
  ∀ (results : list check_result) (worst_code : Z),
    0 <= worst_code →
    evaluate joinpath cert_status runtime w f targets results worst_code
    = ((results ++ map (λ e, (check_entry joinpath cert_status runtime w f e).1) targets)%list,
       Z.max worst_code
         (worst (map (λ e, (check_entry joinpath cert_status runtime w f e).2) targets))).
Proof.
  induction targets as [|e targets IH]; intros results worst_code Hpos; simpl.
  - rewrite app_nil_r. f_equal. lia.
  - rewrite IH, <- app_assoc by lia. simpl. f_equal. lia.
Qed.

Lemma evaluate_worst (runtime : Run.Runtime) (w f : Z) (targets : list EntryConfig) :
  evaluate joinpath cert_status runtime w f targets [] 0
  = (map (λ e, (check_entry joinpath cert_status runtime w f e).1) targets,
     worst (map (λ e, weight (r_status (check_entry joinpath cert_status runtime w f e).1))
                targets)).
Proof.
  rewrite evaluate_acc by done. simpl. f_equal.
  rewrite Z.max_r by apply worst_nonneg. f_equal.
  apply map_ext. intros e. apply check_entry_weight.
Qed.

(** C2 (amended). For an entry whose certificate exists, days left equal
    to the force-renew threshold classify as force-renew whatever the
    warn threshold; days left equal to the warn threshold classify as warn
    when the force-renew threshold is below it and as force-renew
    otherwise, and never as ok. *)
Theorem check_threshold_boundaries (runtime : Run.Runtime) (entry : EntryConfig)
  (st : Certs.CertStatus) (w f : Z) :
  cert_status (cert_path_of joinpath runtime entry) = Some st →
  let d := Certs.days_left st in
  r_status (check_entry joinpath cert_status runtime w d entry).1 = "force-renew"
  ∧ r_status (check_entry joinpath cert_status runtime d f entry).1
    = (if d <=? f then "force-renew" else "warn")
  ∧ r_status (check_entry joinpath cert_status runtime d f entry).1 ≠ "ok".
Proof.
  intros Hst d. unfold check_entry. rewrite Hst. simpl. fold d.
  unfold classify. rewrite !Z.leb_refl.
  destruct (d <=? f); simpl; done.
Qed.

End CheckExitCode.

(** ** The check command on files that may not decode *)

Section CheckCommand.
Import Config Cli Spec.

Variable joinpath : string -> string -> string.
Variable cert_files : string -> option (result Certs.CertStatus).
Variable subprocess_run : list event -> list string -> Z * string * string.

(** On a file that decodes, and on a missing one, the body of the loop is
    that of [Cli.check]. *)
Lemma check_entry_decoded (runtime : Run.Runtime) (w f : Z) (entry : EntryConfig) :
  CliCheck.decodes cert_files (cert_path_of joinpath runtime entry) →
  CliCheck.check_entry joinpath cert_files runtime w f entry
  = Ok (check_entry joinpath (CliCheck.decoded cert_files) runtime w f entry).
Proof.
  intros Hdec. unfold CliCheck.check_entry, check_entry, CliCheck.decoded.
  destruct (cert_files _) as [[status|e]|] eqn:Hfile; [done| |done].
  by destruct (Hdec e).
Qed.

Lemma evaluate_decoded (runtime : Run.Runtime) (w f : Z) (targets : list EntryConfig) :
  Forall (λ e, CliCheck.decodes cert_files (cert_path_of joinpath runtime e)) targets →
  ∀ (results : list check_result) (worst_code : Z),
    CliCheck.evaluate joinpath cert_files runtime w f targets results worst_code
    = Ok (evaluate joinpath (CliCheck.decoded cert_files) runtime w f
            targets results worst_code).
Proof.
  induction 1 as [|e targets Hdec _ IH]; intros results worst_code; simpl; [done|].
  rewrite (check_entry_decoded _ _ _ _ Hdec). simpl. apply IH.
Qed.

(** The loop raises what [get_cert_status] raises on the first target
    whose file does not decode. *)
Lemma evaluate_raises (runtime : Run.Runtime) (w f : Z)
  (pre post : list EntryConfig) (entry : EntryConfig) (e : exn) :
  Forall (λ x, CliCheck.decodes cert_files (cert_path_of joinpath runtime x)) pre →
  cert_files (cert_path_of joinpath runtime entry) = Some (Raise e) →
  ∀ (results : list check_result) (worst_code : Z),
    CliCheck.evaluate joinpath cert_files runtime w f (pre ++ entry :: post)
      results worst_code
    = Raise e.
Proof.
  intros Hpre Hfile.
  induction Hpre as [|x pre Hdec _ IH]; intros results worst_code; simpl.
  - unfold CliCheck.check_entry. by rewrite Hfile.
  - rewrite (check_entry_decoded _ _ _ _ Hdec). simpl. apply IH.
Qed.

(** C1 (amended). A check run over its targets (all entries, or the
    entries of the given name, of which there is one at least). When
    [get_cert_status] raises on no certificate file, the loop yields the
    maximum of the weights of the statuses of the targets (ok 0, warn 10,
    force-renew 20, missing 30), and the run raises [typer.Exit] with that
    code, unless [--fix] is given and an action raises: then the run ends
    with the exception of that action. Without targets the run exits with
    code 0. When [get_cert_status] raises on the file of a target, the
    first such exception ends the run. *)
Theorem check_exit_code_is_worst_weight (runtime : Run.Runtime) (w f : Z)
  (nm : option string) (fix_ : bool) (tr : list event) :
  (PyStr.truthy nm = true →
   named (PyStr.the nm) (entries (Run.config runtime)) ≠ []) →
  let es := if PyStr.truthy nm
            then named (PyStr.the nm) (entries (Run.config runtime))
            else entries (Run.config runtime) in
  let decodes e := CliCheck.decodes cert_files (cert_path_of joinpath runtime e) in
  let result e :=
    (check_entry joinpath (CliCheck.decoded cert_files) runtime w f e).1 in
  let code := worst (map (λ e, weight (r_status (result e))) es) in
  (Forall decodes es →
   CliCheck.evaluate joinpath cert_files runtime w f es [] 0
   = Ok (map result es, code)
   ∧ CliCheck.check joinpath cert_files subprocess_run runtime w f nm fix_ tr
     = match (if fix_ then
                io_for (plan_fix (map result es))
                  (execute_action joinpath subprocess_run runtime) tr
              else (Ok tt, tr)) with
       | (Ok _, tr') => (Raise (Exit code), tr')
       | (Raise e, tr') => (Raise e, tr')
       end)
  ∧ (es = [] →
     CliCheck.check joinpath cert_files subprocess_run runtime w f nm fix_ tr
     = (Raise (Exit 0), tr))
  ∧ (∀ pre entry post e,
       es = (pre ++ entry :: post)%list →
       Forall decodes pre →
       cert_files (cert_path_of joinpath runtime entry) = Some (Raise e) →
       CliCheck.check joinpath cert_files subprocess_run runtime w f nm fix_ tr
       = (Raise e, tr)).
Proof.
  intros Hname es decodes result code.
  assert (Hcheck :
    CliCheck.check joinpath cert_files subprocess_run runtime w f nm fix_ tr
    = match CliCheck.evaluate joinpath cert_files runtime w f es [] 0 with
      | Ok rw =>
          match (if fix_ then
                   io_for (plan_fix rw.1)
                     (execute_action joinpath subprocess_run runtime) tr
                 else (Ok tt, tr)) with
          | (Ok _, tr') => (Raise (Exit rw.2), tr')
          | (Raise e, tr') => (Raise e, tr')
          end
      | Raise e => (Raise e, tr)
      end).
  { unfold CliCheck.check, mbind, io_bind, mret, io_ret, io_raise, io_lift.
    subst es. destruct (PyStr.truthy nm).
    - destruct (named _ _) as [|e l] eqn:Hn; [by destruct Hname|].
      cbn [nonempty_list negb].
      destruct (CliCheck.evaluate joinpath cert_files runtime w f (e :: l) [] 0);
        [|done].
      by destruct fix_.
    - destruct (CliCheck.evaluate joinpath cert_files runtime w f
                  (entries (Run.config runtime)) [] 0); [|done].
      by destruct fix_. }
  assert (Hok : Forall decodes es →
    CliCheck.evaluate joinpath cert_files runtime w f es [] 0
    = Ok (map result es, code)).
  { intros Hdec. rewrite (evaluate_decoded _ _ _ _ Hdec).
    by rewrite evaluate_worst. }
  split; [|split].
  - intros Hdec. split; [by apply Hok|]. by rewrite Hcheck, (Hok Hdec).
  - intros Hes. rewrite Hcheck, Hok by (rewrite Hes; constructor).
    subst code. rewrite Hes. simpl. by destruct fix_.
  - intros pre entry post e Hes Hpre Hfile.
    by rewrite Hcheck, Hes, (evaluate_raises _ _ _ _ _ _ e Hpre Hfile).
Qed.

(** On files that all decode the command is [Cli.check]. *)
Lemma check_of_decoding_files (cert_status : string -> option Certs.CertStatus)
  (runtime : Run.Runtime) (w f : Z) (nm : option string) (fix_ : bool)
  (tr : list event) :
  CliCheck.check joinpath (λ path, Ok <$> cert_status path) subprocess_run
    runtime w f nm fix_ tr
  = check joinpath cert_status subprocess_run runtime w f nm fix_ tr.
Proof.
  assert (Hentry : ∀ e,
    CliCheck.check_entry joinpath (λ path, Ok <$> cert_status path) runtime w f e
    = Ok (check_entry joinpath cert_status runtime w f e)).
  { intros e. unfold CliCheck.check_entry, check_entry.
    by destruct (cert_status _). }
  assert (Heval : ∀ targets results worst_code,
    CliCheck.evaluate joinpath (λ path, Ok <$> cert_status path) runtime w f
      targets results worst_code
    = Ok (evaluate joinpath cert_status runtime w f targets results worst_code)).
  { induction targets as [|e targets IH]; intros results worst_code; simpl; [done|].
    rewrite Hentry. simpl. apply IH. }
  unfold CliCheck.check, check, mbind, io_bind, mret, io_ret, io_raise, io_lift.
  destruct (PyStr.truthy nm); simpl.
  - destruct (nonempty_list _); simpl; [|done]. by rewrite Heval.
  - by rewrite Heval.
Qed.

End CheckCommand.

(** ** Strings *)

Section StringFacts.

Lemma string_length_app (s t : string) :
  String.length (s +:+ t) = (String.length s + String.length t)%nat.
Proof. induction s as [|c s IH]; simpl; [done|]. by rewrite IH. Qed.

Lemma string_app_assoc (a b c : string) : (a +:+ b) +:+ c = a +:+ b +:+ c.
Proof.
  induction a as [|x a IH]; [done|].
  change (String x ((a +:+ b) +:+ c) = String x (a +:+ b +:+ c)). by rewrite IH.
Qed.

Lemma substring_all (s : string) : String.substring 0 (String.length s) s = s.
Proof. induction s as [|c s IH]; simpl; [done|]. by rewrite IH. Qed.

Lemma substring_app_l (s t : string) :
  String.substring 0 (String.length s) (s +:+ t) = s.
Proof.
  induction s as [|c s IH]; simpl; [by destruct t|]. by rewrite IH.
Qed.

Lemma substring_app_r (s t : string) (n : nat) :
  String.substring (String.length s) n (s +:+ t) = String.substring 0 n t.
Proof. induction s as [|c s IH]; simpl; done. Qed.

Lemma startswith_app (p s : string) : PyStr.startswith (p +:+ s) p = true.
Proof.
  unfold PyStr.startswith. induction p as [|c p IH]; simpl; [by destruct s|].
  destruct (ascii_dec c c); [done|congruence].
Qed.

Lemma endswith_app (s p : string) : PyStr.endswith (s +:+ p) p = true.
Proof.
  unfold PyStr.endswith. rewrite string_length_app.
  replace (String.length s + String.length p - String.length p)%nat
    with (String.length s) by lia.
  rewrite substring_app_r, substring_all, String.eqb_refl.
  rewrite andb_true_r. apply Nat.leb_le. lia.
Qed.

(** A string that ends with the character [c] is some string followed by
    it. *)
Lemma endswith_char_inv (s : string) (c : ascii) :
  PyStr.endswith s (String c "") = true → ∃ t, s = t +:+ String c "".
Proof.
  unfold PyStr.endswith. induction s as [|a s IH]; [done|].
  destruct s as [|b s].
  - simpl. intros H. exists "".
    destruct (Ascii.eqb_spec a c) as [->|]; done.
  - intros H. destruct IH as [t Ht].
    + revert H. cbn [String.length Nat.leb Nat.sub andb String.substring].
      by rewrite !Nat.sub_0_r.
    + exists (String a t). by rewrite Ht.
Qed.

Lemma lower_app (s t : string) :
  PyStr.lower (s +:+ t) = PyStr.lower s +:+ PyStr.lower t.
Proof. induction s as [|c s IH]; simpl; [done|]. by rewrite IH. Qed.

(** [rstrip] leaves a string alone when its last character is no space. *)
Lemma rstrip_nonspace_end (s : string) (c : ascii) :
  PyStr.isspace c = false →
  PyStr.rstrip (s +:+ String c "") = s +:+ String c "".
Proof.
  intros Hc. induction s as [|a s IH]; simpl.
  - by rewrite Hc.
  - rewrite IH. by destruct s.
Qed.

End StringFacts.

(** ** References in credential fields *)

Section ReferenceForms.
Import Config.

Lemma is_env_ref_wrap (k : string) :
  _is_env_ref ("${" +:+ k +:+ "}") = negb (String.eqb k "").
Proof.
  unfold _is_env_ref.
  rewrite (startswith_app "${" (k +:+ "}")).
  assert (He : PyStr.endswith ("${" +:+ k +:+ "}") "}" = true)
    by exact (endswith_app ("${" +:+ k) "}").
  rewrite He, !string_length_app, Nat.add_1_r. by destruct k.
Qed.

Lemma env_ref_key_wrap (k : string) :
  _env_ref_key ("${" +:+ k +:+ "}") = PyStr.strip k.
Proof.
  unfold _env_ref_key, PyStr.slice_from_to_end_minus.
  rewrite !string_length_app, Nat.add_1_r.
  cbn [String.length Nat.add Nat.sub String.append String.substring].
  rewrite Nat.sub_0_r.
  change (String.substring 2 (String.length k) ("${" +:+ k +:+ "}"))
    with (String.substring 0 (String.length k) (k +:+ "}")).
  by rewrite substring_app_l.
Qed.

Lemma is_env_ref_inv (v : string) :
  _is_env_ref v = true → ∃ k, k ≠ "" ∧ v = "${" +:+ k +:+ "}".
Proof.
  unfold _is_env_ref. intros [[Hs He]%andb_prop Hl]%andb_prop.
  apply endswith_char_inv in He as [t ->].
  rewrite string_length_app in Hl. apply Nat.ltb_lt in Hl. simpl in Hl.
  destruct t as [|a [|b k]]; simpl in Hl; try lia.
  unfold PyStr.startswith in Hs. apply String.prefix_correct in Hs.
  cbn [String.length String.append String.substring] in Hs.
  injection Hs as -> -> _.
  exists k. split; [|done]. intros ->. simpl in Hl. lia.
Qed.

Lemma strip_wrap (k : string) :
  PyStr.strip ("${" +:+ k +:+ "}") = "${" +:+ k +:+ "}".
Proof.
  unfold PyStr.strip.
  change (PyStr.lstrip ("${" +:+ k +:+ "}")) with (("${" +:+ k) +:+ "}").
  by rewrite rstrip_nonspace_end.
Qed.

End ReferenceForms.

(** ** Secret validation: the keys an entry still requires *)

Section RequiredKeys.
Import Config Spec.

Lemma env_unset_spec (env : gmap string string) (k : string) :
  env_unset env k = true ↔ unset env k.
Proof.
  unfold env_unset, unset, PyStr.truthy, PyStr.nonempty.
  destruct (env !! k) as [s|]; [|naive_solver].
  destruct (String.eqb_spec s ""); naive_solver.
Qed.

Lemma is_env_ref_nonempty (v : string) :
  _is_env_ref v = true → PyStr.nonempty v = true.
Proof. by destruct v. Qed.

Lemma field_missing_elem (env : gmap string string) (value : option string)
  (k : string) :
  k ∈ field_missing env value
  ↔ ∃ v, value = Some v ∧ _is_env_ref v = true ∧ k = _env_ref_key v ∧ unset env k.
Proof.
  unfold field_missing. destruct value as [v|]; [|set_solver].
  destruct (_is_env_ref v) eqn:Href.
  - rewrite (is_env_ref_nonempty v Href). simpl.
    destruct (env_unset env (_env_ref_key v)) eqn:Hun.
    + apply env_unset_spec in Hun. rewrite list_elem_of_singleton. naive_solver.
    + split; [set_solver|]. intros (v' & [= <-] & _ & -> & Hk).
      apply env_unset_spec in Hk. congruence.
  - destruct (PyStr.nonempty v); simpl; split; try set_solver;
      intros (v' & [= <-] & ? & _); congruence.
Qed.

(** The names collected by the first loop are exactly the names referenced
    by a credential field and unset or empty in the environment. *)
Lemma explicit_missing_elem (env : gmap string string) (creds : CredentialsConfig)
  (k : string) :
  k ∈ explicit_missing env creds
  ↔ ∃ v, Some v ∈ credential_fields creds ∧ _is_env_ref v = true
         ∧ k = _env_ref_key v ∧ unset env k.
Proof.
  unfold explicit_missing, credential_fields. simpl.
  rewrite app_nil_r, !elem_of_app, !field_missing_elem. split.
  - intros [H|[H|H]]; destruct H as (v & Hv & H); exists v;
      rewrite !elem_of_cons, Hv; tauto.
  - intros (v & Hv & H). rewrite !elem_of_cons in Hv.
    destruct Hv as [Hv|[Hv|[Hv|Hv]]]; [| | |by apply elem_of_nil in Hv];
      [left|right; left|right; right]; exists v; by rewrite Hv.
Qed.


Lemma no_plain_of_references (creds : CredentialsConfig) :
  (∀ v, Some v ∈ credential_fields creds → v ≠ "" → _is_env_ref v = true) →
  has_any_plain_credential creds = false.
Proof.
  intros Hall. unfold has_any_plain_credential.
  apply not_true_is_false. intros (value & Hin & Hpl)%existsb_exists.
  apply list_elem_of_In in Hin. destruct value as [v|]; [|done]. simpl in Hpl.
  apply andb_prop in Hpl as [Hne Href]. unfold PyStr.nonempty in Hne.
  rewrite (Hall v Hin) in Href; [done|]. intros ->. done.
Qed.

(** The names collected by the first loop, read off the fields. *)
Lemma explicit_missing_names (env : gmap string string) (entry : EntryConfig)
  (name : string) :
  name ∈ explicit_missing env (credentials entry) ↔ missing_reference env entry name.
Proof.
  rewrite explicit_missing_elem. unfold missing_reference, fields, credential_fields.
  split.
  - intros (v & Hin & (k & Hk & ->)%is_env_ref_inv & -> & Hun).
    exists k. by rewrite env_ref_key_wrap in *.
  - intros (k & Hk & Hin & -> & Hun). exists ("${" +:+ k +:+ "}").
    rewrite is_env_ref_wrap, env_ref_key_wrap.
    repeat split; try done. by destruct (String.eqb_spec k "").
Qed.



End RequiredKeys.

Section AccountKeys.
Import Config Spec.

Lemma append_inj_r (s a b : string) : s +:+ a = s +:+ b → a = b.
Proof. induction s as [|c s IH]; simpl; [done|]. intros [= H]. auto. Qed.

(** On a known provider the dispatch yields a list of distinct names. *)
Lemma required_for_known (p raw account : string) :
  known_provider p →
  ∃ required, required_for p raw account = Ok required ∧ NoDup required.
Proof.
  unfold known_provider. rewrite !elem_of_cons.
  intros [->|[->|[->|H]]]; [| | |by apply elem_of_nil in H];
    eexists; (split; [reflexivity|]);
    repeat (constructor; [rewrite ?elem_of_cons, ?elem_of_nil;
              intros H; repeat destruct H as [H|H]; try done;
              by do 2 apply append_inj_r in H|]);
    constructor.
Qed.

(** On any other provider it raises the error naming the provider as
    configured. *)
Lemma required_for_unknown (p raw account : string) :
  ¬ known_provider p →
  required_for p raw account
  = Raise (ValueError ("unsupported dns_provider: " +:+ raw)).
Proof.
  unfold known_provider, required_for. rewrite !elem_of_cons. intros Hp.
  destruct (String.eqb_spec p "cloudflare"); [tauto|].
  destruct (String.eqb_spec p "route53"); [tauto|].
  destruct (String.eqb_spec p "aliyun"); [tauto|]. done.
Qed.

Lemma explicit_missing_nil (env : gmap string string) (creds : CredentialsConfig) :
  (∀ v, Some v ∈ credential_fields creds → _is_env_ref v = true →
        ¬ unset env (_env_ref_key v)) →
  explicit_missing env creds = [].
Proof.
  intros Hset. apply elem_of_nil_inv. intros k Hk.
  apply explicit_missing_elem in Hk as (v & Hin & Href & -> & Hun).
  by apply (Hset v).
Qed.

(** An entry past the credential stage: the account branch decides. *)
Lemma required_env_keys_account (entry : EntryConfig) (env : gmap string string)
  (account : string) :
  explicit_missing env (credentials entry) = [] →
  has_any_plain_credential (credentials entry) = false →
  account_id entry = Some account → account ≠ "" →
  _required_env_keys entry env
  = (required ← required_for (PyStr.lower (dns_provider entry))
                             (dns_provider entry) account;
     Ok (filter (λ k, env_unset env k = true) required)).
Proof.
  intros Hmiss Hplain Hacc Hne. unfold _required_env_keys.
  rewrite Hmiss, Hplain, Hacc. simpl. unfold PyStr.nonempty.
  by destruct (String.eqb_spec account "").
Qed.

Lemma filter_unset_insert (env : gmap string string) (k v : string)
  (required : list string) :
  v ≠ "" →
  filter (λ k', env_unset (<[k:=v]> env) k' = true) required
  = filter (λ k', k' ≠ k) (filter (unset env) required).
Proof.
  intros Hv. rewrite list_filter_filter. apply list_filter_iff. intros k'.
  rewrite env_unset_spec. unfold unset.
  destruct (decide (k = k')) as [->|Hne].
  - rewrite lookup_insert_eq. naive_solver.
  - rewrite lookup_insert_ne by done. naive_solver.
Qed.

(** The names of a known provider are those of the naming convention. *)
Lemma required_for_keys (p raw account : string) :
  known_provider p →
  required_for p raw account = Ok (provider_keys p account)
  ∧ NoDup (provider_keys p account).
Proof.
  intros Hknown.
  destruct (required_for_known p raw account Hknown) as (required & Hreq & Hnd).
  assert (Heq : required_for p raw account = Ok (provider_keys p account)).
  { revert Hknown. unfold known_provider. rewrite !elem_of_cons.
    by intros [->|[->|[->|H]]]; [| | |apply elem_of_nil in H]. }
  split; [done|]. rewrite Heq in Hreq. by injection Hreq as ->.
Qed.

(** C4. An entry with no credential field populated and [account_id] set,
    on a known provider, requires exactly the names of the provider for
    that account (CERTMAN_CLOUDFLARE_<account>_API_TOKEN; for route53
    CERTMAN_AWS_<account>_ACCESS_KEY_ID, _SECRET_ACCESS_KEY and _REGION;
    CERTMAN_ALIYUN_<account>_ACCESS_KEY_ID and _ACCESS_KEY_SECRET; distinct
    names) that are unset or empty in the environment, in that order;
    giving a non-empty value to one of the names still required removes
    that name and no other. *)
Theorem account_keys_minus_environment (entry : EntryConfig)
  (env : gmap string string) (account : string) :
  (∀ value, value ∈ fields entry → PyStr.truthy value = false) →
  account_id entry = Some account →
  account ≠ "" →
  known_provider (PyStr.lower (dns_provider entry)) →
  let keys := provider_keys (PyStr.lower (dns_provider entry)) account in
  NoDup keys
  ∧ _required_env_keys entry env = Ok (filter (unset env) keys)
  ∧ ∀ k v, k ∈ keys → unset env k → v ≠ "" →
      _required_env_keys entry (<[k:=v]> env)
      = Ok (filter (λ k', k' ≠ k) (filter (unset env) keys)).
Proof.
  intros Hnone Hacc Hne Hknown keys.
  destruct (required_for_keys _ (dns_provider entry) account Hknown) as [Hreq Hnd].
  assert (Hplain : has_any_plain_credential (credentials entry) = false).
  { apply no_plain_of_references. intros v Hin Hv.
    apply Hnone in Hin. simpl in Hin. unfold PyStr.nonempty in Hin.
    by destruct (String.eqb_spec v ""). }
  assert (Hmiss : ∀ env', explicit_missing env' (credentials entry) = []).
  { intros env'. apply explicit_missing_nil. intros v Hin Href.
    apply Hnone in Hin. simpl in Hin.
    by rewrite (is_env_ref_nonempty v Href) in Hin. }
  repeat split; [done| |].
  - rewrite (required_env_keys_account _ _ account) by done.
    rewrite Hreq. simpl. f_equal. apply list_filter_iff.
    intros k. apply env_unset_spec.
  - intros k v _ _ Hv.
    rewrite (required_env_keys_account _ _ account) by done.
    rewrite Hreq. simpl. f_equal. by apply filter_unset_insert.
Qed.

(** C10. An entry with [account_id] set whose populated credential fields
    are all references "${" NAME "}": when a referenced variable is unset
    or empty, the entry requires names, and exactly the referenced names
    that are unset or empty; the account is then not looked at. When every
    referenced variable is set, on a known provider, it requires the names
    of the provider for the account that are unset or empty. *)
Theorem references_gate_account_keys (entry : EntryConfig)
  (env : gmap string string) (account : string) :
  account_id entry = Some account →
  account ≠ "" →
  (∀ v, Some v ∈ fields entry → v ≠ "" → ∃ k, k ≠ "" ∧ v = "${" +:+ k +:+ "}") →
  ((∃ name, missing_reference env entry name) →
   ∃ keys,
     _required_env_keys entry env = Ok keys
     ∧ ∀ name, name ∈ keys ↔ missing_reference env entry name)
  ∧ ((∀ name, ¬ missing_reference env entry name) →
     known_provider (PyStr.lower (dns_provider entry)) →
     _required_env_keys entry env
     = Ok (filter (unset env)
             (provider_keys (PyStr.lower (dns_provider entry)) account))).
Proof.
  intros Hacc Hne Hrefs. split.
  - intros [name Hname]. exists (explicit_missing env (credentials entry)).
    split; [|apply explicit_missing_names].
    apply explicit_missing_names in Hname. unfold _required_env_keys.
    by destruct (explicit_missing env (credentials entry));
      [apply elem_of_nil in Hname|].
  - intros Hset Hknown.
    rewrite (required_env_keys_account _ _ account); [|..|done|done].
    + destruct (required_for_keys _ (dns_provider entry) account Hknown) as [-> _].
      simpl. f_equal. apply list_filter_iff. intros k. apply env_unset_spec.
    + apply elem_of_nil_inv. intros name Hin.
      by apply explicit_missing_names, Hset in Hin.
    + apply no_plain_of_references. intros v Hin Hv.
      destruct (Hrefs v Hin Hv) as (k & Hk & ->).
      rewrite is_env_ref_wrap. by destruct (String.eqb_spec k "").
Qed.

End AccountKeys.

Section UnknownProvider.
Import Config Spec.

(** The only exception of [_required_env_keys]: the unsupported provider,
    named as configured. *)
Lemma required_env_keys_raise (entry : EntryConfig) (env : gmap string string)
  (err : exn) :
  _required_env_keys entry env = Raise err →
  err = ValueError ("unsupported dns_provider: " +:+ dns_provider entry)
  ∧ ¬ known_provider (PyStr.lower (dns_provider entry)).
Proof.
  unfold _required_env_keys.
  destruct (_ || _); [done|].
  destruct (account_id entry) as [account|]; [|done].
  destruct (negb _); [done|].
  intros Hraise. split.
  - unfold required_for in Hraise. repeat case_match; simplify_eq/=; done.
  - intros Hknown.
    destruct (required_for_known _ (dns_provider entry) account Hknown)
      as (required & Hreq & _).
    by rewrite Hreq in Hraise.
Qed.

(** The loop of [validate_required_secrets] stops at the first entry that
    raises. *)
Lemma collect_missing_first_raise (env : gmap string string) (es : list EntryConfig) :
  ∀ (acc : list string) (e : EntryConfig) (err : exn),
    e ∈ es → _required_env_keys e env = Raise err →
    ∃ pre e' post err',
      es = (pre ++ e' :: post)%list
      ∧ Forall (λ x, ∃ ks, _required_env_keys x env = Ok ks) pre
      ∧ _required_env_keys e' env = Raise err'
      ∧ collect_missing es env acc = Raise err'.
Proof.
  induction es as [|a es IH]; intros acc e err Hin Hraise.
  - by apply elem_of_nil in Hin.
  - destruct (_required_env_keys a env) as [ks|err0] eqn:Ha.
    + apply elem_of_cons in Hin as [->|Hin]; [congruence|].
      destruct (IH (acc ++ ks)%list e err Hin Hraise)
        as (pre & e' & post & err' & -> & Hpre & He' & Hcol).
      exists (a :: pre), e', post, err'. repeat split; [|done|].
      * constructor; eauto.
      * simpl. rewrite Ha. simpl. done.
    + exists [], a, es, err0. repeat split; [constructor|done|].
      simpl. by rewrite Ha.
Qed.

(** C6 (amended). When the configuration holds an entry of unknown
    provider (after lower-casing) that has [account_id] set and whose
    populated credential fields are all references to variables that are
    set, secret validation raises for the whole run: the error is the
    unsupported-provider error of the first entry that raises, itself an
    entry of unknown provider, named as configured. *)
Theorem unknown_provider_fails_validation (cfg : AppConfig)
  (env : gmap string string) (e : EntryConfig) (account : string) :
  e ∈ entries cfg →
  ¬ known_provider (PyStr.lower (dns_provider e)) →
  account_id e = Some account →
  account ≠ "" →
  (∀ v, Some v ∈ credential_fields (credentials e) → v ≠ "" →
        _is_env_ref v = true ∧ ¬ unset env (_env_ref_key v)) →
  ∃ pre e' post,
    entries cfg = (pre ++ e' :: post)%list
    ∧ Forall (λ x, ∃ ks, _required_env_keys x env = Ok ks) pre
    ∧ ¬ known_provider (PyStr.lower (dns_provider e'))
    ∧ validate_required_secrets cfg env
      = Raise (ValueError ("unsupported dns_provider: " +:+ dns_provider e')).
Proof.
  intros Hin Hunknown Hacc Hne Hrefs.
  assert (Hraise : _required_env_keys e env
                   = Raise (ValueError ("unsupported dns_provider: "
                                        +:+ dns_provider e))).
  { rewrite (required_env_keys_account _ _ account); [|..|done|done].
    - by rewrite required_for_unknown.
    - apply explicit_missing_nil. intros v Hv Href.
      apply Hrefs; [done|]. intros ->. done.
    - apply no_plain_of_references. intros v Hv Hvne. by apply Hrefs. }
  destruct (collect_missing_first_raise env (entries cfg) [] e _ Hin Hraise)
    as (pre & e' & post & err' & Hsplit & Hpre & He' & Hcol).
  apply required_env_keys_raise in He' as He''. destruct He'' as [-> Hunk'].
  exists pre, e', post. repeat split; [done..|].
  unfold validate_required_secrets. by rewrite Hcol.
Qed.

End UnknownProvider.

(** ** The credential resolver *)

Section CredentialResolver.
Import Config Spec.

Lemma truthy_spec (value : option string) :
  PyStr.truthy value = true ↔ ∃ v, value = Some v ∧ v ≠ "".
Proof.
  unfold PyStr.truthy, PyStr.nonempty. destruct value as [v|]; [|naive_solver].
  destruct (String.eqb_spec v ""); naive_solver.
Qed.

Lemma not_truthy_spec (value : option string) :
  PyStr.truthy value = false ↔ value = None ∨ value = Some "".
Proof.
  unfold PyStr.truthy, PyStr.nonempty. destruct value as [v|]; [|naive_solver].
  destruct (String.eqb_spec v ""); naive_solver.
Qed.

Lemma resolve_value_resolves (env : gmap string string) (value : string) :
  field_resolves env value (Providers._resolve_value env value).
Proof.
  unfold Providers._resolve_value.
  destruct (PyStr.startswith (PyStr.strip value) "${"
            && PyStr.endswith (PyStr.strip value) "}") eqn:Href.
  - set (k := PyStr.strip (PyStr.slice_from_to_end_minus 2 1 (PyStr.strip value))).
    assert (Hk : reference_name value = Some k)
      by (unfold reference_name; by rewrite Href).
    destruct (PyStr.truthy (env !! k)) eqn:Hset; simpl.
    + apply truthy_spec in Hset as (r & Hr & Hne). rewrite Hr. simpl.
      by apply (resolves_reference env value k r).
    + apply not_truthy_spec in Hset. by apply resolves_missing.
  - apply resolves_literal. unfold reference_name. by rewrite Href.
Qed.

(** The second and third rules, once the first does not apply. *)
Lemma account_branch (env : gmap string string) (entry : EntryConfig) :
  (∀ kid ks, ¬ explicit_pair entry kid ks) →
  resolves env entry
    (if negb (PyStr.truthy (account_id entry)) then
       Raise (ValueError "aliyun entry missing account_id or credentials")
     else
       let account := PyStr.the (account_id entry) in
       let ak := env !! ("CERTMAN_ALIYUN_" +:+ account +:+ "_ACCESS_KEY_ID") in
       let sk := env !! ("CERTMAN_ALIYUN_" +:+ account +:+ "_ACCESS_KEY_SECRET") in
       if negb (PyStr.truthy ak) || negb (PyStr.truthy sk) then
         Raise (ValueError ("missing aliyun env keys for account_id=" +:+ account))
       else Ok {| Providers.access_key_id := PyStr.the ak;
                  Providers.access_key_secret := PyStr.the sk |}).
Proof.
  intros Hnopair.
  destruct (PyStr.truthy (account_id entry)) eqn:Hacc; simpl.
  - apply truthy_spec in Hacc as (account & Hacc & Hne). rewrite Hacc. simpl.
    destruct (PyStr.truthy (env !! _)) eqn:Hak at 1; simpl.
    + destruct (PyStr.truthy (env !! _)) eqn:Hsk at 1; simpl.
      * apply truthy_spec in Hak as (a & Ha & Hane).
        apply truthy_spec in Hsk as (s & Hs & Hsne).
        rewrite Ha, Hs. simpl. by eapply account_ok.
      * apply not_truthy_spec in Hsk. eapply account_missing; eauto.
    + apply not_truthy_spec in Hak. eapply account_missing; eauto.
  - apply not_truthy_spec in Hacc. by apply unconfigured.
Qed.

(** C5 (amended). The credential resolver follows the precedence: with
    both the access-key id and the secret populated, each is resolved on
    its own, a literal to itself stripped of surrounding whitespace, a
    reference to the non-empty value of its variable, a reference to an
    unset or empty variable raising the missing-variable error (the id
    first); otherwise, with [account_id] set, the two variables of the
    account convention are used and raise when one is unset or empty;
    otherwise the resolver raises the configuration error. *)
Theorem credential_resolver_precedence (env : gmap string string)
  (entry : EntryConfig) :
  resolves env entry (Providers.aliyun_credentials_for_entry env entry).
Proof.
  unfold Providers.aliyun_credentials_for_entry.
  destruct (PyStr.truthy (access_key_id (credentials entry))) eqn:Hid;
    [destruct (PyStr.truthy (access_key_secret (credentials entry))) eqn:Hsec|];
    simpl.
  - apply truthy_spec in Hid as (kid & Hid & Hidne).
    apply truthy_spec in Hsec as (ks & Hsec & Hsecne).
    rewrite Hid, Hsec. simpl.
    assert (Hpair : explicit_pair entry kid ks) by done.
    pose proof (resolve_value_resolves env kid) as Hr1.
    pose proof (resolve_value_resolves env ks) as Hr2.
    destruct (Providers._resolve_value env kid) as [a|e1]; simpl;
      [|by eapply explicit_id_fails].
    destruct (Providers._resolve_value env ks) as [s|e2]; simpl;
      [by eapply explicit_ok|by eapply explicit_secret_fails].
  - apply not_truthy_spec in Hsec.
    apply account_branch.
    intros kid ks (_ & _ & Hks & Hne). destruct Hsec; congruence.
  - apply not_truthy_spec in Hid.
    apply account_branch.
    intros kid ks (Hk & Hne & _). destruct Hid; congruence.
Qed.

End CredentialResolver.

(** ** The configuration merge *)

Section MergeRoundTrip.
Import Config Schema ConfigMerge.

Variable fnmatch : string -> string -> bool.

Lemma str_items_dump (model : string) (l : list string) :
  str_items model (map RStr l) = Ok l.
Proof. induction l as [|s l IH]; simpl; [done|]. by rewrite IH. Qed.

(** Validation reads back what [model_dump] wrote. *)
Lemma CredentialsConfig_roundtrip (model : string) (c : CredentialsConfig) :
  CredentialsConfig_validate model (CredentialsConfig_dump c) = Ok c.
Proof.
  by destruct c as [[a|] [b|] [t|]].
Qed.

Lemma EntryConfig_roundtrip (model : string) (e : EntryConfig) :
  EntryConfig_validate model (EntryConfig_dump e) = Ok e.
Proof.
  destruct e as [n d p s w dp acc c].
  unfold EntryConfig_validate, EntryConfig_dump, str_field, str_list_field,
    bool_field, opt_str_field.
  cbn [name description primary_domain secondary_domains wildcard
       dns_provider account_id credentials dict_get String.eqb Ascii.eqb
       Bool.eqb mbind result_bind].
  rewrite str_items_dump. cbn [mbind result_bind].
  rewrite CredentialsConfig_roundtrip. by destruct acc.
Qed.

Lemma entries_roundtrip (model : string) (es : list EntryConfig) :
  entries_validate model (map EntryConfig_dump es) = Ok es.
Proof.
  induction es as [|e es IH]; [done|]. cbn [map entries_validate].
  rewrite EntryConfig_roundtrip. cbn [mbind result_bind]. by rewrite IH.
Qed.

Lemma GlobalConfig_roundtrip (model : string) (g : GlobalConfig) :
  GlobalConfig_validate model (GlobalConfig_dump g) = Ok g.
Proof. by destruct g. Qed.

Lemma AppConfig_roundtrip (cfg : AppConfig) :
  AppConfig_validate
    [("global", GlobalConfig_dump (global_ cfg));
     ("entries", RList (map EntryConfig_dump (entries cfg)))]
  = Ok cfg.
Proof.
  destruct cfg as [g es]. unfold AppConfig_validate.
  cbn [dict_get String.eqb Ascii.eqb Bool.eqb global_ entries].
  rewrite GlobalConfig_roundtrip. cbn [mbind result_bind].
  rewrite entries_roundtrip. done.
Qed.

(** Files the loop passes over: the global file and example files. *)
Lemma merge_items_skipped (global_name : string) (items : list file) :
  ∀ merged_entries,
    Forall (λ f, f_name f = global_name
                 ∨ PyStr.endswith (f_name f) ".example.toml" = true) items →
    merge_items global_name items merged_entries = Ok merged_entries.
Proof.
  induction items as [|item items IH]; intros merged Hall; [done|].
  apply Forall_cons in Hall as [Hskip Hall]. simpl.
  assert (Hitem : item_entries global_name item = Ok []).
  { unfold item_entries. destruct Hskip as [->|Hex].
    - by rewrite String.eqb_refl.
    - rewrite Hex. by destruct (String.eqb _ _). }
  rewrite Hitem. simpl. rewrite app_nil_r. by apply IH.
Qed.

(** C8. When the global file loads and every file its glob matches, if
    any, is passed over by the loop (none is an item file), the merged
    configuration is the configuration of the global file itself: the same
    entries in the same order, under the same global settings. *)
Theorem merge_without_items_roundtrip (dir : list file) (global_name : string)
  (base_cfg : AppConfig) (global_only : GlobalOnlyConfig) :
  load_config dir global_name = Ok base_cfg →
  load_global_only dir global_name = Ok global_only →
  Forall (λ f, f_name f = global_name
               ∨ PyStr.endswith (f_name f) ".example.toml" = true)
         (glob_sorted fnmatch dir (scan_items_glob global_only)) →
  load_merged_config fnmatch dir global_name = Ok base_cfg.
Proof.
  intros Hbase Hglob Hnone.
  unfold load_merged_config. rewrite Hbase, Hglob. simpl.
  rewrite merge_items_skipped by done. simpl.
  apply AppConfig_roundtrip.
Qed.

End MergeRoundTrip.

(** ** The fix flow of the check command *)

Section FixFlow.
Import Config Cli Spec.

Variable joinpath : string -> string -> string.
Variable cert_status : string -> option Certs.CertStatus.
Variable subprocess_run : list event -> list string -> Z * string * string.

(** A loop in [io] either completes, or stops at its first failing round
    with that round's exception and trace. *)
Lemma io_for_outcome {A : Type} (body : A → io unit) (xs : list A) :
  ∀ tr,
    (∃ tr', io_for xs body tr = (Ok tt, tr'))
    ∨ (∃ pre x post e tr1 tr2,
         xs = (pre ++ x :: post)%list
         ∧ io_for pre body tr = (Ok tt, tr1)
         ∧ body x tr1 = (Raise e, tr2)
         ∧ io_for xs body tr = (Raise e, tr2)).
Proof.
  induction xs as [|x xs IH]; intros tr.
  - left. by eexists.
  - simpl. unfold mbind, io_bind.
    destruct (body x tr) as [[[]|e] tr1] eqn:Hx.
    + destruct (IH tr1)
        as [[tr' H]|(pre & y & post & e & t1 & t2 & -> & Hpre & Hy & Hall)].
      * left. by exists tr'.
      * right. exists (x :: pre), y, post, e, t1, t2.
        repeat split; try done.
        simpl. unfold mbind, io_bind. by rewrite Hx.
    + right. by exists [], x, xs, e, tr, tr1.
Qed.

(** Planning keeps the order of the results. *)
Lemma plan_fix_order (results : list check_result) :
  map a_entry (plan_fix results)
  = map r_entry
      (filter (λ r, r_status r = "missing" ∨ r_status r = "force-renew") results).
Proof.
  induction results as [|r rs IH]; [done|].
  unfold plan_fix in *. simpl.
  destruct (String.eqb_spec (r_status r) "missing") as [Hm|Hm].
  - rewrite filter_cons_True by tauto. simpl. by rewrite IH.
  - destruct (String.eqb_spec (r_status r) "force-renew") as [Hf|Hf].
    + rewrite filter_cons_True by tauto. simpl. by rewrite IH.
    + rewrite filter_cons_False by tauto. simpl. by rewrite IH.
Qed.

(** C7 (amended). In the fix flow the planned actions follow the order of
    the results and are executed in that order, each on the trace the
    previous one left. When all succeed the run ends with the exit code of
    the check. When one fails, the run ends there with that action's
    exception: the actions planned after it are not executed. *)
Theorem fix_actions_stop_at_first_failure (runtime : Run.Runtime) (w f : Z)
  (nm : option string) (tr : list event) :
  (PyStr.truthy nm = true →
   named (PyStr.the nm) (entries (Run.config runtime)) ≠ []) →
  let targets := if PyStr.truthy nm
                 then named (PyStr.the nm) (entries (Run.config runtime))
                 else entries (Run.config runtime) in
  let rw := evaluate joinpath cert_status runtime w f targets [] 0 in
  let actions := plan_fix rw.1 in
  let run := execute_action joinpath subprocess_run runtime in
  map a_entry actions
  = map r_entry
      (filter (λ r, r_status r = "missing" ∨ r_status r = "force-renew") rw.1)
  ∧ ((∃ tr', io_for actions run tr = (Ok tt, tr')
             ∧ check joinpath cert_status subprocess_run runtime w f nm true tr
               = (Raise (Exit rw.2), tr'))
     ∨ (∃ pre a post e tr1 tr2,
          actions = (pre ++ a :: post)%list
          ∧ io_for pre run tr = (Ok tt, tr1)
          ∧ run a tr1 = (Raise e, tr2)
          ∧ check joinpath cert_status subprocess_run runtime w f nm true tr
            = (Raise e, tr2))).
Proof.
  intros Htargets targets rw actions run. split; [apply plan_fix_order|].
  assert (Hcheck : check joinpath cert_status subprocess_run runtime w f nm true tr
                   = match io_for actions run tr with
                     | (Ok _, tr') => (Raise (Exit rw.2), tr')
                     | (Raise e, tr') => (Raise e, tr')
                     end).
  { unfold check, mbind, io_bind, mret, io_ret, io_raise.
    subst actions run rw targets.
    destruct (PyStr.truthy nm).
    - destruct (named _ _) eqn:Hn; [by destruct Htargets|]. simpl. done.
    - done. }
  rewrite Hcheck.
  destruct (io_for_outcome run actions tr)
    as [[tr' H]|(pre & a & post & e & t1 & t2 & Hsplit & Hpre & Ha & Hall)].
  - left. exists tr'. by rewrite H.
  - right. exists pre, a, post, e, t1, t2. by rewrite Hall.
Qed.

End FixFlow.

(** ** The properties at concrete configurations *)

Section Instances.
Import Config Spec Examples.

Lemma check_threshold_boundaries_witness :
  certs_in_5_days (Cli.cert_path_of joinpath (runtime_of [entry_a]) entry_a)
  = Some {| Certs.days_left := 5; Certs.not_after := "2026-11-09T00:00:00+00:00" |}
  ∧ Cli.r_status (Cli.check_entry joinpath certs_in_5_days
                    (runtime_of [entry_a]) 30 5 entry_a).1 = "force-renew"
  ∧ Cli.r_status (Cli.check_entry joinpath certs_in_5_days
                    (runtime_of [entry_a]) 5 3 entry_a).1
    = (if 5 <=? 3 then "force-renew" else "warn")
  ∧ Cli.r_status (Cli.check_entry joinpath certs_in_5_days
                    (runtime_of [entry_a]) 5 3 entry_a).1 ≠ "ok".
Proof.
  split; [reflexivity|].
  apply (check_threshold_boundaries joinpath certs_in_5_days
           (runtime_of [entry_a]) entry_a
           {| Certs.days_left := 5;
              Certs.not_after := "2026-11-09T00:00:00+00:00" |} 30 3).
  reflexivity.
Defined.

(** Days left equal to the warn threshold, with a force-renew threshold
    above it: the entry is classified force-renew, not warn. *)
Lemma warn_boundary_under_force_threshold :
  Certs.days_left <$> certs_in_5_days
      (Cli.cert_path_of joinpath (runtime_of [entry_a]) entry_a) = Some 5
  ∧ Cli.r_status (Cli.check_entry joinpath certs_in_5_days
                    (runtime_of [entry_a]) 5 7 entry_a).1 = "force-renew"
  ∧ Cli.r_status (Cli.check_entry joinpath certs_in_5_days
                    (runtime_of [entry_a]) 5 7 entry_a).1 ≠ "warn".
Proof. by vm_compute. Qed.

(** Two entries, the certificate of the first expiring in twenty days and
    the second without certificate: the statuses are warn and missing, and
    the run exits with code 30. With the file of the second holding no
    certificate, the run ends with the exception of the decoder, [--fix]
    or not. *)
Lemma check_exit_code_is_worst_weight_witness :
  (PyStr.truthy None = true →
   Cli.named (PyStr.the None) (entries (Run.config runtime_ab)) ≠ [])
  ∧ (∃ results,
       CliCheck.evaluate joinpath MoreExamples.cert_of_a_only runtime_ab 30 7
         [entry_a; entry_b] [] 0 = Ok (results, 30)
       ∧ map Cli.r_status results = ["warn"; "missing"])
  ∧ CliCheck.check joinpath MoreExamples.cert_of_a_only certbot_fails runtime_ab
      30 7 None false []
    = (Raise (Exit 30), [])
  ∧ CliCheck.check joinpath MoreExamples.cert_of_b_broken certbot_fails runtime_ab
      30 7 None true []
    = (Raise (SSLError "Error decoding PEM-encoded file"), []).
Proof.
  assert (Hname : PyStr.truthy None = true →
            Cli.named (PyStr.the None) (entries (Run.config runtime_ab)) ≠ [])
    by (intros H; discriminate H).
  split; [exact Hname|].
  destruct (check_exit_code_is_worst_weight joinpath MoreExamples.cert_of_a_only
              certbot_fails runtime_ab 30 7 None false [] Hname) as (Hok & _ & _).
  destruct (check_exit_code_is_worst_weight joinpath MoreExamples.cert_of_b_broken
              certbot_fails runtime_ab 30 7 None true [] Hname) as (_ & _ & Hraise).
  split; [|split].
  - eexists. split.
    + apply Hok. repeat constructor; intros e He; discriminate He.
    + reflexivity.
  - apply Hok. repeat constructor; intros e He; discriminate He.
  - apply (Hraise [entry_a] entry_b []); [reflexivity| |reflexivity].
    repeat constructor. intros e He. discriminate He.
Defined.

(** Two entries without certificates, checked with [--fix] while certbot
    fails: both weigh 30, and the run exits with code 1. *)
Lemma fix_failure_exit_code_is_not_worst_weight :
  (∃ results,
     CliCheck.evaluate joinpath MoreExamples.no_cert_files runtime_ab 30 7
       (entries (Run.config runtime_ab)) [] 0 = Ok (results, 30)
     ∧ map Cli.r_status results = ["missing"; "missing"])
  ∧ (CliCheck.check joinpath MoreExamples.no_cert_files certbot_fails runtime_ab
       30 7 None true []).1
    = Raise (Exit 1)
  ∧ Cli.check joinpath no_certs certbot_fails runtime_ab 30 7 None true []
    = CliCheck.check joinpath MoreExamples.no_cert_files certbot_fails runtime_ab
        30 7 None true [].
Proof.
  split; [eexists; split; reflexivity|]. split; by vm_compute.
Qed.


Lemma account_keys_minus_environment_witness :
  known_provider (PyStr.lower (dns_provider entry_account))
  ∧ _required_env_keys entry_account ∅
    = Ok ["CERTMAN_ALIYUN_acc_ACCESS_KEY_ID"; "CERTMAN_ALIYUN_acc_ACCESS_KEY_SECRET"]
  ∧ _required_env_keys entry_account (<["CERTMAN_ALIYUN_acc_ACCESS_KEY_ID" := "ak"]> ∅)
    = Ok ["CERTMAN_ALIYUN_acc_ACCESS_KEY_SECRET"].
Proof.
  assert (Hknown : known_provider (PyStr.lower (dns_provider entry_account)))
    by (unfold known_provider; simpl; repeat constructor).
  split; [exact Hknown|].
  destruct (account_keys_minus_environment entry_account ∅ "acc")
    as (_ & Heq & Hupd); [|reflexivity|done|exact Hknown|].
  { intros value Hin. apply list_elem_of_In in Hin. simpl in Hin.
    by destruct Hin as [<-|[<-|[<-|[]]]]. }
  split; [exact Heq|].
  apply (Hupd "CERTMAN_ALIYUN_acc_ACCESS_KEY_ID" "ak"); [constructor|by left|done].
Defined.

(** A referenced variable that is unset is reported alone; once it is set,
    the names of the account are required. *)
Lemma references_gate_account_keys_witness :
  account_id entry_reference = Some "acc"
  ∧ _required_env_keys entry_reference ∅ = Ok ["AK_VAR"]
  ∧ (∃ keys,
       _required_env_keys entry_reference ∅ = Ok keys
       ∧ ∀ name, name ∈ keys ↔ missing_reference ∅ entry_reference name)
  ∧ _required_env_keys entry_reference MoreExamples.env_reference
    = Ok ["CERTMAN_ALIYUN_acc_ACCESS_KEY_ID"; "CERTMAN_ALIYUN_acc_ACCESS_KEY_SECRET"].
Proof.
  assert (Hrefs : ∀ v, Some v ∈ fields entry_reference → v ≠ "" →
                       ∃ k, k ≠ "" ∧ v = "${" +:+ k +:+ "}").
  { intros v Hin _. apply list_elem_of_In in Hin. simpl in Hin.
    destruct Hin as [[= <-]|[?|[?|[]]]]; try done. by exists "AK_VAR". }
  destruct (references_gate_account_keys entry_reference ∅ "acc")
    as [Hmiss _]; [reflexivity|done|exact Hrefs|].
  destruct (references_gate_account_keys entry_reference MoreExamples.env_reference "acc")
    as [_ Hset]; [reflexivity|done|exact Hrefs|].
  split; [reflexivity|]. split; [reflexivity|]. split.
  - apply Hmiss. exists "AK_VAR", "AK_VAR".
    repeat split; [done|constructor|by left].
  - apply Hset.
    + intros name (k & Hk & Hin & -> & Hun).
      apply list_elem_of_In in Hin.
      destruct Hin as [Heq|[Heq|[Heq|[]]]]; try discriminate Heq.
      apply (f_equal (λ value, match value with
                               | Some v => _env_ref_key v
                               | None => ""
                               end)) in Heq.
      cbv beta iota in Heq. rewrite env_ref_key_wrap in Heq.
      rewrite <- Heq in Hun.
      destruct Hun as [Hun|Hun]; vm_compute in Hun; discriminate Hun.
    + unfold known_provider. simpl. repeat constructor.
Defined.

(** A literal access-key id with a leading space is not passed through
    verbatim: the resolved id has lost the space. *)
Lemma literal_with_space_is_stripped :
  access_key_id (credentials entry_spaced) = Some " AK"
  ∧ Providers.aliyun_credentials_for_entry ∅ entry_spaced
    = Ok {| Providers.access_key_id := "AK"; Providers.access_key_secret := "SK" |}
  ∧ Providers.aliyun_credentials_for_entry ∅ entry_spaced
    ≠ Ok {| Providers.access_key_id := " AK"; Providers.access_key_secret := "SK" |}.
Proof. by vm_compute. Qed.

(** A template entry of unknown provider, without [account_id] and
    without credentials, does not fail secret validation. *)
Lemma unknown_provider_template_validates :
  entry_unknown_template ∈ entries (config_of [entry_unknown_template])
  ∧ ¬ known_provider (PyStr.lower (dns_provider entry_unknown_template))
  ∧ validate_required_secrets (config_of [entry_unknown_template]) ∅ = Ok tt.
Proof.
  split; [by constructor|]. split; [|reflexivity].
  unfold known_provider. simpl. rewrite !elem_of_cons, elem_of_nil.
  by intros [?|[?|[?|[]]]].
Qed.

Lemma unknown_provider_fails_validation_witness :
  entry_unknown_account ∈ entries (config_of [entry_a; entry_unknown_account])
  ∧ ∃ pre e' post,
      entries (config_of [entry_a; entry_unknown_account]) = (pre ++ e' :: post)%list
      ∧ Forall (λ x, ∃ ks, _required_env_keys x ∅ = Ok ks) pre
      ∧ ¬ known_provider (PyStr.lower (dns_provider e'))
      ∧ validate_required_secrets (config_of [entry_a; entry_unknown_account]) ∅
        = Raise (ValueError ("unsupported dns_provider: " +:+ dns_provider e')).
Proof.
  assert (Hin : entry_unknown_account
                ∈ entries (config_of [entry_a; entry_unknown_account]))
    by (simpl; repeat constructor).
  split; [exact Hin|].
  apply (unknown_provider_fails_validation _ ∅ entry_unknown_account "acc");
    [exact Hin| |reflexivity|done|].
  - unfold known_provider. simpl. rewrite !elem_of_cons, elem_of_nil.
    by intros [?|[?|[?|[]]]].
  - intros v Hv. apply list_elem_of_In in Hv. simpl in Hv.
    by destruct Hv as [?|[?|[?|[]]]].
Defined.

(** Two entries without certificates, certbot failing: two actions are
    planned, the first is executed and fails, and the run ends there with
    exit code 1; nothing is done for the second entry. *)
Lemma failed_action_blocks_the_next :
  map Cli.a_entry
    (Cli.plan_fix (Cli.evaluate joinpath no_certs runtime_ab
                     30 7 [entry_a; entry_b] [] 0).1)
  = ["a"; "b"]
  ∧ Cli.check joinpath no_certs certbot_fails runtime_ab
      30 7 None true []
    = (Raise (Exit 1),
       [EvWriteIni "data/run/credentials/aliyun_a.ini"
          ("dns_aliyun_access_key = AK" +:+ PyStr.nl
           +:+ "dns_aliyun_access_key_secret = SK" +:+ PyStr.nl);
        EvCertbot
          ["certbot"; "certonly"; "--authenticator"; "dns-aliyun";
           "--dns-aliyun-credentials"; "data/run/credentials/aliyun_a.ini";
           "--agree-tos"; "--email"; "admin@example.com"; "--test-cert";
           "--force-renewal"; "-d"; "a.test"; "-d"; "*.a.test";
           "--config-dir"; "data/run/letsencrypt"; "--work-dir";
           "data/run/work"; "--logs-dir"; "data/log"; "--non-interactive"]]).
Proof. by vm_compute. Qed.

Lemma fix_actions_stop_at_first_failure_witness :
  PyStr.truthy None = false
  ∧ map Cli.a_entry
      (Cli.plan_fix (Cli.evaluate joinpath no_certs runtime_ab 30 7
                       (entries (Run.config runtime_ab)) [] 0).1)
    = map Cli.r_entry
        (filter (λ r, Cli.r_status r = "missing" ∨ Cli.r_status r = "force-renew")
           (Cli.evaluate joinpath no_certs runtime_ab 30 7
              (entries (Run.config runtime_ab)) [] 0).1)
  ∧ ((∃ tr',
        io_for
          (Cli.plan_fix (Cli.evaluate joinpath no_certs runtime_ab 30 7
                           (entries (Run.config runtime_ab)) [] 0).1)
          (Cli.execute_action joinpath certbot_fails runtime_ab) []
        = (Ok tt, tr')
        ∧ Cli.check joinpath no_certs certbot_fails runtime_ab 30 7 None true []
          = (Raise
               (Exit (Cli.evaluate joinpath no_certs runtime_ab 30 7
                        (entries (Run.config runtime_ab)) [] 0).2), tr'))
     ∨ (∃ pre a post e tr1 tr2,
          Cli.plan_fix (Cli.evaluate joinpath no_certs runtime_ab 30 7
                          (entries (Run.config runtime_ab)) [] 0).1
          = (pre ++ a :: post)%list
          ∧ io_for pre (Cli.execute_action joinpath certbot_fails runtime_ab) []
            = (Ok tt, tr1)
          ∧ Cli.execute_action joinpath certbot_fails runtime_ab a tr1
            = (Raise e, tr2)
          ∧ Cli.check joinpath no_certs certbot_fails runtime_ab 30 7 None true []
            = (Raise e, tr2))).
Proof.
  split; [reflexivity|].
  apply (fix_actions_stop_at_first_failure joinpath no_certs certbot_fails
           runtime_ab 30 7 None []).
  intros Hnamed. discriminate Hnamed.
Defined.

Lemma merge_without_items_roundtrip_witness :
  ConfigMerge.glob_sorted fnmatch_items dir_global_only "item_*.toml" = []
  ∧ ConfigMerge.load_merged_config fnmatch_items dir_global_only "config.toml"
    = ConfigMerge.load_config dir_global_only "config.toml".
Proof.
  split; [reflexivity|].
  apply (merge_without_items_roundtrip fnmatch_items dir_global_only "config.toml" _
           {| go_global_ := global_ops; scan_items_glob := "item_*.toml" |});
    [reflexivity| |constructor].
  vm_compute. reflexivity.
Defined.

End Instances.

(** * Further properties of the code *)

(** ** The syntax of references *)

Section ReferenceSyntax.
Import Config.

(** X3. A value is recognised as a reference exactly when it is a
    non-empty name between "${" and "}", and the name such a value refers
    to is the text between them without its surrounding whitespace. *)
Theorem env_ref_syntax (v : string) :
  (_is_env_ref v = true ↔ ∃ k, k ≠ "" ∧ v = "${" +:+ k +:+ "}")
  ∧ ∀ k, _env_ref_key ("${" +:+ k +:+ "}") = PyStr.strip k.
Proof.
  split; [|apply env_ref_key_wrap]. split; [apply is_env_ref_inv|].
  intros (k & Hk & ->). rewrite is_env_ref_wrap.
  by destruct (String.eqb_spec k "").
Qed.

End ReferenceSyntax.

(** ** Secret validation as a whole *)

Section ValidationReport.
Import Config.

Lemma insert_sorted_perm (x : string) (l : list string) :
  PyStr.insert_sorted x l ≡ₚ x :: l.
Proof.
  induction l as [|y l IH]; simpl; [done|].
  destruct (String.leb x y); [done|]. rewrite IH. apply Permutation_swap.
Qed.

Lemma sorted_perm (l : list string) : PyStr.sorted l ≡ₚ l.
Proof.
  induction l as [|x l IH]; simpl; [done|].
  by rewrite insert_sorted_perm, IH.
Qed.

Lemma insert_sorted_Sorted (x : string) (l : list string) :
  Sorted (λ a b, String.leb a b = true) l →
  Sorted (λ a b, String.leb a b = true) (PyStr.insert_sorted x l).
Proof.
  induction 1 as [|y l Hl IH Hhd]; simpl; [by repeat constructor|].
  destruct (String.leb x y) eqn:Hxy.
  - by repeat constructor.
  - constructor; [done|].
    destruct l as [|z l]; simpl.
    + constructor. by destruct (String.leb_total x y) as [?|?]; [congruence|].
    + destruct (String.leb x z); constructor.
      * by destruct (String.leb_total x y) as [?|?]; [congruence|].
      * by inversion Hhd.
Qed.

Lemma sorted_Sorted (l : list string) :
  Sorted (λ a b, String.leb a b = true) (PyStr.sorted l).
Proof.
  induction l as [|x l IH]; simpl; [constructor|].
  by apply insert_sorted_Sorted.
Qed.

(** The loop over the entries, when no entry raises: what it collects. *)
Lemma collect_missing_ok (env : gmap string string) (es : list EntryConfig) :
  Forall (λ e, ∃ ks, _required_env_keys e env = Ok ks) es →
  ∀ acc, ∃ m,
    collect_missing es env acc = Ok m
    ∧ ∀ k, k ∈ m ↔ k ∈ acc ∨ ∃ e ks, e ∈ es ∧ _required_env_keys e env = Ok ks
                                      ∧ k ∈ ks.
Proof.
  induction 1 as [|e es [ks He] Hes IH]; intros acc.
  - exists acc. split; [done|]. intros k. split; [tauto|].
    intros [?|(e & ks & Hin & _)]; [done|]. by apply elem_of_nil in Hin.
  - destruct (IH (acc ++ ks)%list) as (m & Hm & Hk).
    exists m. split; [simpl; by rewrite He|].
    intros k. rewrite Hk, elem_of_app. split.
    + intros [[?|?]|(e' & ks' & Hin & ? & ?)]; [tauto| |].
      * right. exists e, ks. split; [by left|done].
      * right. exists e', ks'. split; [by right|done].
    + intros [?|(e' & ks' & Hin & He' & Hkk)]; [tauto|].
      apply elem_of_cons in Hin as [->|Hin].
      * left. right. congruence.
      * right. by exists e', ks'.
Qed.

Lemma collect_missing_ok_inv (env : gmap string string) (es : list EntryConfig) :
  ∀ acc m, collect_missing es env acc = Ok m →
           Forall (λ e, ∃ ks, _required_env_keys e env = Ok ks) es.
Proof.
  induction es as [|e es IH]; intros acc m Hm; [constructor|].
  simpl in Hm. destruct (_required_env_keys e env) as [ks|] eqn:He; [|done].
  constructor; eauto.
Qed.

(** X1. Secret validation passes exactly when no entry requires any key:
    every entry's required keys are computed without error and are none. *)
Theorem validation_passes_iff_nothing_required (cfg : AppConfig)
  (env : gmap string string) :
  validate_required_secrets cfg env = Ok tt
  ↔ ∀ e, e ∈ entries cfg → _required_env_keys e env = Ok [].
Proof.
  unfold validate_required_secrets. split.
  - intros Hv.
    destruct (collect_missing (entries cfg) env []) as [m|] eqn:Hm; [|done].
    destruct m; [|done].
    pose proof (collect_missing_ok_inv _ _ _ _ Hm) as Hall.
    destruct (collect_missing_ok env _ Hall []) as (m' & Hm' & Hk).
    rewrite Hm in Hm'. injection Hm' as <-.
    intros e Hin. apply Forall_forall with (x := e) in Hall as [ks Hks]; [|done].
    rewrite Hks. f_equal. apply elem_of_nil_inv. intros k Hkin.
    apply (elem_of_nil k). apply Hk. right. by exists e, ks.
  - intros Hall.
    assert (Hok : Forall (λ e, ∃ ks, _required_env_keys e env = Ok ks) (entries cfg))
      by (apply Forall_forall; eauto).
    destruct (collect_missing_ok env _ Hok []) as (m & Hm & Hk).
    rewrite Hm. simpl.
    assert (m = []) as ->; [|done].
    apply elem_of_nil_inv. intros k [Hin|(e & ks & Hin & He & Hkin)]%Hk.
    + by apply elem_of_nil in Hin.
    + rewrite (Hall e Hin) in He. injection He as <-. by apply elem_of_nil in Hkin.
Qed.

(** X2. When no entry raises, secret validation either passes, no key being
    missing, or raises the error whose message lists, one per line after
    the heading, the missing keys of all entries: each once, in ascending
    order. *)
Theorem validation_reports_sorted_keys (cfg : AppConfig)
  (env : gmap string string) :
  Forall (λ e, ∃ ks, _required_env_keys e env = Ok ks) (entries cfg) →
  ∃ keys,
    Sorted (λ a b, String.leb a b = true) keys
    ∧ NoDup keys
    ∧ (∀ k, k ∈ keys
            ↔ ∃ e ks, e ∈ entries cfg ∧ _required_env_keys e env = Ok ks ∧ k ∈ ks)
    ∧ validate_required_secrets cfg env
      = match keys with
        | [] => Ok tt
        | _ :: _ =>
            Raise (ValueError ("Missing required env keys:" +:+ PyStr.nl
                               +:+ PyStr.join PyStr.nl keys))
        end.
Proof.
  intros Hok.
  destruct (collect_missing_ok env _ Hok []) as (m & Hm & Hk).
  exists (PyStr.sorted (remove_dups m)).
  split; [apply sorted_Sorted|].
  split; [rewrite sorted_perm; apply NoDup_remove_dups|].
  split.
  - intros k. rewrite sorted_perm, elem_of_remove_dups, Hk.
    split; [|tauto]. intros [Hin|?]; [|done]. by apply elem_of_nil in Hin.
  - unfold validate_required_secrets. rewrite Hm. simpl.
    destruct m as [|k m]; [done|].
    destruct (PyStr.sorted (remove_dups (k :: m))) as [|k' keys] eqn:Hs; [|done].
    exfalso. apply (elem_of_nil k).
    rewrite <- Hs, sorted_perm, elem_of_remove_dups. by left.
Qed.

End ValidationReport.

(** ** Validation against resolution *)

Section ValidationAndResolution.
Import Config.

Lemma the_Some (v : string) : PyStr.the (Some v) = v.
Proof. done. Qed.

(** The resolver on a well-formed reference. *)
Lemma resolve_value_wrap (env : gmap string string) (k : string) :
  Providers._resolve_value env ("${" +:+ k +:+ "}")
  = if negb (PyStr.truthy (env !! PyStr.strip k))
    then Raise (ValueError ("missing env var for reference: " +:+ PyStr.strip k))
    else Ok (PyStr.the (env !! PyStr.strip k)).
Proof.
  unfold Providers._resolve_value. rewrite strip_wrap.
  rewrite (startswith_app "${" (k +:+ "}")).
  assert (He : PyStr.endswith ("${" +:+ k +:+ "}") "}" = true)
    by exact (endswith_app ("${" +:+ k) "}").
  rewrite He. cbn [andb].
  by rewrite <- (env_ref_key_wrap k).
Qed.

Lemma no_credentials_populated (entry : EntryConfig) :
  (∀ value, value ∈ credential_fields (credentials entry) →
            PyStr.truthy value = false) →
  has_any_plain_credential (credentials entry) = false
  ∧ ∀ env, explicit_missing env (credentials entry) = [].
Proof.
  intros Hnone. split.
  - apply no_plain_of_references. intros v Hin Hv.
    apply Hnone in Hin. simpl in Hin. unfold PyStr.nonempty in Hin.
    by destruct (String.eqb_spec v "").
  - intros env. apply explicit_missing_nil. intros v Hin Href.
    apply Hnone in Hin. simpl in Hin.
    by rewrite (is_env_ref_nonempty v Href) in Hin.
Qed.

(** X4. For an aliyun entry in account mode (no credential field
    populated, [account_id] set), secret validation requires nothing
    exactly when the credential resolver succeeds: what [config-validate]
    accepts, [new] and [renew] can resolve, and conversely. *)
Theorem validated_account_entry_resolves (entry : EntryConfig)
  (env : gmap string string) (account : string) :
  (∀ value, value ∈ credential_fields (credentials entry) →
            PyStr.truthy value = false) →
  account_id entry = Some account →
  account ≠ "" →
  PyStr.lower (dns_provider entry) = "aliyun" →
  _required_env_keys entry env = Ok []
  ↔ ∃ c, Providers.aliyun_credentials_for_entry env entry = Ok c.
Proof.
  intros Hnone Hacc Hne Hprov.
  destruct (no_credentials_populated entry Hnone) as [Hplain Hmiss].
  rewrite (required_env_keys_account _ _ account) by done.
  rewrite Hprov. cbn [required_for String.eqb Ascii.eqb Bool.eqb mbind result_bind].
  unfold Providers.aliyun_credentials_for_entry.
  rewrite (Hnone (access_key_id (credentials entry))) by (by left).
  rewrite Hacc. cbn [andb PyStr.truthy].
  change (PyStr.the (Some account)) with account.
  assert (Hn : PyStr.nonempty account = true)
    by (unfold PyStr.nonempty; by destruct (String.eqb_spec account "")).
  rewrite Hn. cbn [negb].
  rewrite !filter_cons, filter_nil. unfold env_unset.
  destruct (PyStr.truthy (env !! ("CERTMAN_ALIYUN_" +:+ account +:+ "_ACCESS_KEY_ID")));
    destruct (PyStr.truthy
                (env !! ("CERTMAN_ALIYUN_" +:+ account +:+ "_ACCESS_KEY_SECRET")));
    cbn [negb orb]; repeat case_decide; try done.
  all: (split; [try done; eauto|try done; by intros [? ?]]).
Qed.

(** X5. For an entry whose access-key id and secret are both references
    "${NAME}", when secret validation requires nothing the resolver
    succeeds, and the credentials are the non-empty values of the two
    variables. *)
Theorem validated_references_resolve (entry : EntryConfig)
  (env : gmap string string) (k1 k2 : string) :
  access_key_id (credentials entry) = Some ("${" +:+ k1 +:+ "}") →
  k1 ≠ "" →
  access_key_secret (credentials entry) = Some ("${" +:+ k2 +:+ "}") →
  k2 ≠ "" →
  _required_env_keys entry env = Ok [] →
  ∃ a s,
    env !! PyStr.strip k1 = Some a ∧ a ≠ ""
    ∧ env !! PyStr.strip k2 = Some s ∧ s ≠ ""
    ∧ Providers.aliyun_credentials_for_entry env entry
      = Ok {| Providers.access_key_id := a; Providers.access_key_secret := s |}.
Proof.
  intros Hid Hk1 Hsec Hk2 Hreq.
  assert (Hmiss : explicit_missing env (credentials entry) = []).
  { unfold _required_env_keys in Hreq.
    destruct (explicit_missing env (credentials entry)); [done|].
    simpl in Hreq. congruence. }
  assert (Hset : ∀ k, k ≠ "" →
            Some ("${" +:+ k +:+ "}") ∈ credential_fields (credentials entry) →
            ∃ v, env !! PyStr.strip k = Some v ∧ v ≠ "").
  { intros k Hk Hin.
    destruct (env !! PyStr.strip k) as [v|] eqn:Hv.
    - exists v. split; [done|]. intros ->.
      apply (elem_of_nil (PyStr.strip k)). rewrite <- Hmiss.
      apply explicit_missing_elem. exists ("${" +:+ k +:+ "}").
      rewrite is_env_ref_wrap, env_ref_key_wrap.
      repeat split; [done|by destruct (String.eqb_spec k "")|by right].
    - exfalso. apply (elem_of_nil (PyStr.strip k)). rewrite <- Hmiss.
      apply explicit_missing_elem. exists ("${" +:+ k +:+ "}").
      rewrite is_env_ref_wrap, env_ref_key_wrap.
      repeat split; [done|by destruct (String.eqb_spec k "")|by left]. }
  destruct (Hset k1 Hk1) as (a & Ha & Hane);
    [unfold credential_fields; rewrite Hid; by left|].
  destruct (Hset k2 Hk2) as (s & Hs & Hsne);
    [unfold credential_fields; rewrite Hsec; right; by left|].
  exists a, s. repeat split; try done.
  unfold Providers.aliyun_credentials_for_entry. rewrite Hid, Hsec.
  cbn [PyStr.truthy]. rewrite !the_Some.
  assert (Hne : ∀ k, PyStr.nonempty ("${" +:+ k +:+ "}") = true) by done.
  rewrite !Hne. cbn [andb]. rewrite !resolve_value_wrap, Ha, Hs.
  cbn [PyStr.truthy]. rewrite !the_Some.
  unfold PyStr.nonempty.
  destruct (String.eqb_spec a ""); [done|].
  destruct (String.eqb_spec s ""); [done|]. done.
Qed.

(** X27. Validation and resolution agree on references: a value the
    validator recognises as a reference is resolved by the resolver through
    the very variable the validator checks, to its value when that is set
    and not empty, and to the missing-variable error otherwise. *)
Theorem recognised_reference_resolves_alike (env : gmap string string)
  (v : string) :
  _is_env_ref v = true →
  Providers._resolve_value env v
  = if env_unset env (_env_ref_key v)
    then Raise (ValueError ("missing env var for reference: " +:+ _env_ref_key v))
    else Ok (PyStr.the (env !! _env_ref_key v)).
Proof.
  intros (k & _ & ->)%is_env_ref_inv.
  by rewrite resolve_value_wrap, env_ref_key_wrap.
Qed.

End ValidationAndResolution.

(** ** Classification, exit code and the fix plan *)

Section ExitCodeAndPlan.
Import Config Cli Spec.

Variable joinpath : string -> string -> string.
Variable cert_status : string -> option Certs.CertStatus.
Variable subprocess_run : list event -> list string -> Z * string * string.

(** X6. Whatever the thresholds, fewer days left never weigh less: the
    exit weight of a certificate does not decrease as its expiry comes
    closer. *)
Theorem classify_antitone (d1 d2 w f : Z) :
  d1 <= d2 → (classify d2 w f).2 <= (classify d1 w f).2.
Proof.
  intros Hd. unfold classify.
  destruct (Z.leb_spec d1 f), (Z.leb_spec d2 f),
    (Z.leb_spec d1 w), (Z.leb_spec d2 w); simpl; lia.
Qed.

(** X7. With a force-renew threshold that is not negative, a certificate
    that has already expired (negative days left) is classified
    force-renew, with weight 20, as the docstring of [check] says. *)
Theorem expired_is_force_renew (d w f : Z) :
  0 <= f → d < 0 → classify d w f = ("force-renew", 20).
Proof.
  intros Hf Hd. unfold classify. destruct (Z.leb_spec d f); [done|lia].
Qed.

Lemma check_entry_status (runtime : Run.Runtime) (w f : Z) (entry : EntryConfig) :
  r_status (check_entry joinpath cert_status runtime w f entry).1
  ∈ ["missing"; "force-renew"; "warn"; "ok"].
Proof.
  unfold check_entry. destruct (cert_status _); simpl; [|by left].
  unfold classify. repeat case_match; simpl; set_solver.
Qed.

Lemma worst_and_plan (results : list check_result) :
  Forall (λ r, r_status r ∈ ["missing"; "force-renew"; "warn"; "ok"]) results →
  worst (map (λ r, weight (r_status r)) results) ∈ [0; 10; 20; 30]
  ∧ (plan_fix results = [] ↔ worst (map (λ r, weight (r_status r)) results) < 20).
Proof.
  induction 1 as [|r rs Hr Hrs [IHv IHp]]; [simpl; split; [by left|done]|].
  unfold plan_fix in *. cbn [map flat_map worst foldr]. fold (worst (map (λ r, weight (r_status r)) rs)).
  set (m := worst (map (λ r, weight (r_status r)) rs)) in *.
  assert (Hm : m = 0 ∨ m = 10 ∨ m = 20 ∨ m = 30).
  { rewrite !elem_of_cons, elem_of_nil in IHv. tauto. }
  rewrite !elem_of_cons, elem_of_nil in Hr.
  destruct Hr as [->|[->|[->|[->|Hf]]]]; [| | | |done];
    cbn [String.eqb Ascii.eqb Bool.eqb weight app].
  - split; [|split; [done|lia]].
    rewrite !elem_of_cons. destruct Hm as [-> | [-> | [-> | ->]]]; simpl; auto.
  - split; [|split; [done|lia]].
    rewrite !elem_of_cons. destruct Hm as [-> | [-> | [-> | ->]]]; simpl; auto.
  - split.
    + rewrite !elem_of_cons. destruct Hm as [-> | [-> | [-> | ->]]]; simpl; auto.
    + rewrite IHp. lia.
  - split.
    + rewrite !elem_of_cons. destruct Hm as [-> | [-> | [-> | ->]]]; simpl; auto.
    + rewrite IHp. lia.
Qed.

(** X8. The code computed by the check loop is one of 0, 10, 20 and 30,
    and the fix plan is empty exactly when that code is below 20: an
    action is planned if and only if some entry is missing or due for a
    forced renewal. *)
Theorem exit_code_and_fix_plan (runtime : Run.Runtime) (w f : Z)
  (targets : list EntryConfig) :
  (evaluate joinpath cert_status runtime w f targets [] 0).2 ∈ [0; 10; 20; 30]
  ∧ (plan_fix (evaluate joinpath cert_status runtime w f targets [] 0).1 = []
     ↔ (evaluate joinpath cert_status runtime w f targets [] 0).2 < 20).
Proof.
  rewrite evaluate_worst. cbn [fst snd].
  pose proof (worst_and_plan
    (map (λ e, (check_entry joinpath cert_status runtime w f e).1) targets)) as H.
  rewrite map_map in H. apply H.
  apply Forall_forall. intros r (e & -> & _)%list_elem_of_fmap.
  apply check_entry_status.
Qed.

(** X9. A check run with [--fix] over entries none of which is missing or
    due for a forced renewal does nothing but exit with the code of the
    check: no credentials file is written and certbot is not run. *)
Theorem fix_without_due_entries_is_check (runtime : Run.Runtime) (w f : Z)
  (tr : list event) :
  (evaluate joinpath cert_status runtime w f
     (entries (Run.config runtime)) [] 0).2 < 20 →
  check joinpath cert_status subprocess_run runtime w f None true tr
  = (Raise (Exit (evaluate joinpath cert_status runtime w f
                    (entries (Run.config runtime)) [] 0).2), tr).
Proof.
  intros Hlt.
  unfold check, mbind, io_bind, mret, io_ret, io_raise. cbn [PyStr.truthy].
  assert (Hplan : plan_fix (evaluate joinpath cert_status runtime w f
                              (entries (Run.config runtime)) [] 0).1 = []).
  { revert Hlt. rewrite evaluate_worst. cbn [fst snd]. intros Hlt.
    pose proof (worst_and_plan
      (map (λ e, (check_entry joinpath cert_status runtime w f e).1)
           (entries (Run.config runtime)))) as H.
    rewrite map_map in H. apply H; [|done].
    apply Forall_forall. intros r (e & -> & _)%list_elem_of_fmap.
    apply check_entry_status. }
  by rewrite Hplan.
Qed.

End ExitCodeAndPlan.

(** ** The commands new, renew and export *)

Section Commands.
Import Config Cli.

Variable joinpath : string -> string -> string.
Variable cert_status : string -> option Certs.CertStatus.
Variable subprocess_run : list event -> list string -> Z * string * string.

Lemma io_for_emit {A : Type} (g : A → event) (xs : list A) :
  ∀ tr, io_for xs (λ x, io_emit (g x)) tr = (Ok tt, (tr ++ map g xs)%list).
Proof.
  induction xs as [|x xs IH]; intros tr; simpl.
  - by rewrite app_nil_r.
  - unfold mbind, io_bind, io_emit at 1. rewrite IH, <- app_assoc. done.
Qed.

(** Credentials are written only once they are resolved. *)
Lemma prepare_outcome (runtime : Run.Runtime) (entry : EntryConfig)
  (tr : list event) :
  ∃ path content,
    _prepare_aliyun_credentials_ini joinpath runtime entry tr
    = match Providers.aliyun_credentials_for_entry (Run.env runtime) entry with
      | Ok _ => (Ok path, (tr ++ [EvWriteIni path content])%list)
      | Raise e => (Raise e, tr)
      end.
Proof.
  unfold _prepare_aliyun_credentials_ini, mbind, io_bind, io_lift,
    write_aliyun_credentials_ini, io_emit, mret, io_ret.
  eexists _, (match Providers.aliyun_credentials_for_entry (Run.env runtime) entry with
              | Ok creds => _
              | Raise _ => ""
              end).
  destruct (Providers.aliyun_credentials_for_entry _ _); reflexivity.
Qed.

(** Every exception of the resolver is a [ValueError]. *)
Lemma resolver_raises_value_error (env : gmap string string) (entry : EntryConfig)
  (e : exn) :
  Providers.aliyun_credentials_for_entry env entry = Raise e →
  ∃ msg, e = ValueError msg.
Proof.
  assert (Hv : ∀ v r, Providers._resolve_value env v = Raise r →
                      ∃ msg, r = ValueError msg).
  { intros v r. unfold Providers._resolve_value.
    repeat case_match; intros [= <-]; eauto. }
  unfold Providers.aliyun_credentials_for_entry.
  destruct (_ && _).
  - destruct (Providers._resolve_value env
                (PyStr.the (access_key_id (credentials entry)))) as [a|r] eqn:H1.
    + destruct (Providers._resolve_value env
                  (PyStr.the (access_key_secret (credentials entry))))
        as [s|r] eqn:H2; simpl; [done|].
      intros [= <-]. eauto.
    + simpl. intros [= <-]. eauto.
  - repeat case_match; intros [= <-]; eauto.
Qed.

Lemma export_outcome (runtime : Run.Runtime) (all : bool) (nm : option string)
  (overwrite : bool) (tr : list event) :
  let es := entries (Run.config runtime) in
  let targets := if PyStr.truthy nm then named (PyStr.the nm) es else es in
  export joinpath runtime all nm overwrite tr
  = if negb all && negb (PyStr.truthy nm) then
      (Raise (BadParameter "must provide --all or --name"), tr)
    else if PyStr.truthy nm && negb (nonempty_list targets) then
      (Raise (BadParameter ("entry not found: " +:+ PyStr.the nm)), tr)
    else
      (Ok tt,
       (tr ++ map (λ e, EvExport
                          (joinpath (joinpath (letsencrypt_dir_of joinpath runtime) "live")
                                    (primary_domain e))
                          (joinpath (Run.output_dir (Run.paths runtime)) (name e))
                          overwrite) targets)%list).
Proof.
  intros es targets. unfold export. fold es.
  destruct (negb all && negb (PyStr.truthy nm)); [done|].
  subst targets. unfold mbind, io_bind, mret, io_ret, io_raise.
  destruct (PyStr.truthy nm); cbn [andb].
  - destruct (nonempty_list (named (PyStr.the nm) es)); cbn [negb]; [|done].
    apply io_for_emit.
  - apply io_for_emit.
Qed.

(** The shape of every run of [new]. *)
Lemma new_outcome (runtime : Run.Runtime) (nm : string)
  (force export_ verbose : bool) (tr : list event) :
  (∃ e, new joinpath subprocess_run runtime nm force export_ verbose tr
        = (Raise e, tr)
        ∧ ∀ code, e ≠ Exit code)
  ∨ (∃ entry rest c path content,
       named nm (entries (Run.config runtime)) = entry :: rest
       ∧ PyStr.lower (dns_provider entry) = "aliyun"
       ∧ Providers.aliyun_credentials_for_entry (Run.env runtime) entry = Ok c
       ∧ let cmd :=
           ("certbot"
            :: (["certonly"; "--authenticator"; "dns-aliyun";
                 "--dns-aliyun-credentials"; path; "--agree-tos"; "--email";
                 email (global_ (Run.config runtime))]
                ++ (if String.eqb (acme_server (global_ (Run.config runtime))) "staging"
                    then ["--test-cert"] else [])
                ++ (if force then ["--force-renewal"] else [])
                ++ flat_map (λ d, ["-d"; d]) (_entry_domains entry))
            ++ ["--config-dir"; letsencrypt_dir_of joinpath runtime;
                "--work-dir"; joinpath (Run.run_dir (Run.paths runtime)) "work";
                "--logs-dir"; Run.log_dir (Run.paths runtime);
                "--non-interactive"])%list in
         let tr2 := (tr ++ [EvWriteIni path content; EvCertbot cmd])%list in
         let rc := (subprocess_run (tr ++ [EvWriteIni path content])%list cmd).1.1 in
         let err := (subprocess_run (tr ++ [EvWriteIni path content])%list cmd).2 in
         new joinpath subprocess_run runtime nm force export_ verbose tr
         = if negb (rc =? 0) then
             (Raise (if verbose then Exit 1
                     else if CertbotRunner.contains (PyStr.lower err) "administrative rights"
                             || CertbotRunner.contains (PyStr.lower err) "administrator"
                          then Exit 2 else Exit 1), tr2)
           else if export_ then export joinpath runtime false (Some nm) true tr2
           else (Ok tt, tr2)).
Proof.
  unfold new.
  destruct (named nm (entries (Run.config runtime))) as [|entry rest] eqn:Hn.
  { left. eexists. split; [reflexivity|done]. }
  destruct (String.eqb_spec (PyStr.lower (dns_provider entry)) "aliyun")
    as [Hp|Hp]; cbn [negb].
  2: { left. eexists. split; [reflexivity|done]. }
  destruct (prepare_outcome runtime entry tr) as (path & content & Hprep).
  destruct (Providers.aliyun_credentials_for_entry _ _) as [c|e] eqn:Hc.
  2: { left. exists e. split.
       - unfold mbind, io_bind. by rewrite Hprep.
       - apply resolver_raises_value_error in Hc as [msg ->]. done. }
  right. exists entry, rest, c, path, content.
  split; [done|]. split; [done|]. split; [done|].
  cbv zeta. unfold mbind, io_bind. rewrite Hprep.
  unfold CertbotRunner.run_certbot, certbot_paths.
  cbn [CertbotRunner.config_dir CertbotRunner.work_dir CertbotRunner.logs_dir].
  destruct (subprocess_run _ _) as [[rc out] err]. cbn [fst snd].
  assert (Happ : ∀ (a b : event), ((tr ++ [a]) ++ [b] = tr ++ [a; b])%list)
    by (intros; by rewrite <- app_assoc).
  rewrite Happ.
  destruct verbose; cbn [negb];
    unfold CertbotRunner.ok; cbn [CertbotRunner.returncode];
    destruct (rc =? 0); cbn [negb]; try done;
    unfold io_raise, fail_exit, CertbotRunner.is_admin_required_error;
    cbn [CertbotRunner.stderr]; by destruct export_.
Qed.

(** X11. A run of [new] either raises with no effect at all, or concerns
    the first entry of the given name, an aliyun entry whose credentials
    resolve, and then starts by writing the credentials file and running
    certbot once, in that order. *)
Theorem new_acts_only_with_credentials (runtime : Run.Runtime) (nm : string)
  (force export_ verbose : bool) (tr : list event) :
  (∃ e, new joinpath subprocess_run runtime nm force export_ verbose tr
        = (Raise e, tr))
  ∨ (∃ entry rest c path content cmd more,
       named nm (entries (Run.config runtime)) = entry :: rest
       ∧ PyStr.lower (dns_provider entry) = "aliyun"
       ∧ Providers.aliyun_credentials_for_entry (Run.env runtime) entry = Ok c
       ∧ (new joinpath subprocess_run runtime nm force export_ verbose tr).2
         = (tr ++ EvWriteIni path content :: EvCertbot cmd :: more)%list
       ∧ Forall (λ ev, ∃ l o b, ev = EvExport l o b) more).
Proof.
  destruct (new_outcome runtime nm force export_ verbose tr)
    as [(e & He & _)|(entry & rest & c & path & content & Hn & Hp & Hc & Hnew)].
  { left. eauto. }
  right. exists entry, rest, c, path, content. eexists.
  cbv zeta in Hnew. rewrite Hnew. clear Hnew.
  destruct (negb _).
  { exists []. by repeat split. }
  destruct export_; [|exists []; by repeat split].
  rewrite export_outcome. cbn [negb andb PyStr.truthy].
  destruct (PyStr.nonempty nm); cbn [andb].
  - destruct (nonempty_list _); cbn [negb].
    + exists (map (λ e, EvExport
                          (joinpath (joinpath (letsencrypt_dir_of joinpath runtime) "live")
                                    (primary_domain e))
                          (joinpath (Run.output_dir (Run.paths runtime)) (name e))
                          true)
                  (named (PyStr.the (Some nm)) (entries (Run.config runtime)))).
      repeat split; try done.
      * cbn [snd]. by rewrite <- app_assoc.
      * apply Forall_forall. intros ev (e & -> & _)%list_elem_of_fmap. eauto.
    + exists []. by repeat split.
  - exists []. by repeat split.
Qed.

(** X12. When certbot fails whatever it is asked, [new] always raises, and
    never exports: it raises with no effect, or it has written the
    credentials file and run certbot once and raises [typer.Exit] with code
    1 or 2. *)
Theorem new_failure_exports_nothing (runtime : Run.Runtime) (nm : string)
  (force export_ verbose : bool) (tr : list event) :
  (∀ t cmd, (subprocess_run t cmd).1.1 ≠ 0) →
  ∃ e tr',
    new joinpath subprocess_run runtime nm force export_ verbose tr = (Raise e, tr')
    ∧ (tr' = tr
       ∨ ∃ path content cmd,
           tr' = (tr ++ [EvWriteIni path content; EvCertbot cmd])%list
           ∧ (e = Exit 1 ∨ e = Exit 2)).
Proof.
  intros Hfail.
  destruct (new_outcome runtime nm force export_ verbose tr)
    as [(e & He & _)|(entry & rest & c & path & content & Hn & Hp & Hc & Hnew)].
  { exists e, tr. eauto. }
  cbv zeta in Hnew. rewrite Hnew. clear Hnew.
  match goal with
  | |- context [negb (?x =? 0)] =>
      destruct (Z.eqb_spec x 0) as [H0|_]; [by apply Hfail in H0|]
  end.
  cbn [negb]. eexists _, _. split; [reflexivity|]. right.
  eexists _, _, _. split; [reflexivity|].
  destruct verbose; [by left|]. destruct (_ || _); auto.
Qed.

(** X13. With [--verbose] the output of certbot is not captured, so the
    administrator hint is never recognised: whenever [new] then ends with
    [typer.Exit], the code is 1, not 2. *)
Theorem new_verbose_exit_code (runtime : Run.Runtime) (nm : string)
  (force export_ : bool) (tr tr' : list event) (code : Z) :
  new joinpath subprocess_run runtime nm force export_ true tr
  = (Raise (Exit code), tr') →
  code = 1.
Proof.
  destruct (new_outcome runtime nm force export_ true tr)
    as [(e & He & Hne)|(entry & rest & c & path & content & Hn & Hp & Hc & Hnew)].
  { rewrite He. intros [= -> _]. by destruct (Hne code). }
  cbv zeta in Hnew. rewrite Hnew. clear Hnew.
  destruct (negb _); [by intros [= <- _]|].
  destruct export_; [|done].
  rewrite export_outcome. cbn [negb andb PyStr.truthy].
  by repeat case_match.
Qed.

End Commands.

Section Renewal.
Import Config Cli.

Variable joinpath : string -> string -> string.
Variable subprocess_run : list event -> list string -> Z * string * string.

Lemma io_bind_run {A B : Type} (m : io A) (k : A → io B) (tr : list event) :
  (m ≫= k) tr
  = match m tr with
    | (Ok a, tr') => k a tr'
    | (Raise e, tr') => (Raise e, tr')
    end.
Proof. reflexivity. Qed.

(** The loop that prepares the credentials of every entry stops at the
    first entry whose credentials do not resolve, having only written
    credentials files. *)
Lemma prepare_all_fails (runtime : Run.Runtime) (es : list EntryConfig) :
  ∀ tr e err,
    e ∈ es →
    Providers.aliyun_credentials_for_entry (Run.env runtime) e = Raise err →
    ∃ err' added,
      Forall (λ ev, ∃ p c, ev = EvWriteIni p c) added
      ∧ io_for es (λ entry,
                     _ ← _prepare_aliyun_credentials_ini joinpath runtime entry;
                     mret tt) tr
        = (Raise err', (tr ++ added)%list).
Proof.
  induction es as [|a es IH]; intros tr e err Hin Herr.
  { by apply elem_of_nil in Hin. }
  cbn [io_for]. rewrite !io_bind_run.
  destruct (prepare_outcome joinpath runtime a tr) as (path & content & ->).
  destruct (Providers.aliyun_credentials_for_entry (Run.env runtime) a)
    as [c|err0] eqn:Ha.
  - apply elem_of_cons in Hin as [->|Hin]; [congruence|].
    destruct (IH (tr ++ [EvWriteIni path content])%list e err Hin Herr)
      as (err' & added & Hadded & Hrun).
    exists err', (EvWriteIni path content :: added).
    split; [constructor; eauto|].
    change ((mret tt : io unit) (tr ++ [EvWriteIni path content])%list)
      with (@Ok unit tt, (tr ++ [EvWriteIni path content])%list).
    cbv beta iota. by rewrite Hrun, <- app_assoc.
  - exists err0, []. split; [constructor|]. by rewrite app_nil_r.
Qed.

(** X14. [renew --all] prepares the credentials of every configured
    entry before certbot is run: when the credentials of some entry do not
    resolve, it raises having at most written credentials files, and
    certbot is not run. *)
Theorem renew_all_needs_every_credential (runtime : Run.Runtime)
  (nm : option string) (force dry_run export_ verbose : bool)
  (tr : list event) (e : EntryConfig) (err : exn) :
  e ∈ entries (Run.config runtime) →
  Providers.aliyun_credentials_for_entry (Run.env runtime) e = Raise err →
  ∃ err' added,
    Forall (λ ev, ∃ p c, ev = EvWriteIni p c) added
    ∧ renew joinpath subprocess_run runtime true nm force dry_run export_ verbose tr
      = (Raise err', (tr ++ added)%list).
Proof.
  intros Hin Herr.
  destruct (prepare_all_fails runtime _ tr e err Hin Herr)
    as (err' & added & Hadded & Hrun).
  exists err', added. split; [done|].
  unfold renew. cbn [negb andb].
  unfold mbind at 1, io_bind at 1. by rewrite Hrun.
Qed.

(** X15. A renew action of the fix flow is always a dry run: whatever it
    does, every certbot command it runs carries [--dry-run], and it exports
    nothing. ([check] calls [renew] without [dry_run], which is then the
    truthy default object of the option.) *)
Theorem fix_renew_is_dry_run (runtime : Run.Runtime) (action : fix_action)
  (tr : list event) :
  a_action action = "renew" →
  ∃ r added,
    execute_action joinpath subprocess_run runtime action tr = (r, (tr ++ added)%list)
    ∧ Forall (λ ev, match ev with
                    | EvWriteIni _ _ => True
                    | EvCertbot cmd => "--dry-run" ∈ cmd
                    | EvExport _ _ _ => False
                    end) added.
Proof.
  intros Hact. unfold execute_action. rewrite Hact.
  cbn [String.eqb Ascii.eqb Bool.eqb].
  unfold renew. cbn [negb andb PyStr.truthy].
  destruct (PyStr.nonempty (a_entry action)); cbn [negb andb].
  2: { eexists _, []. rewrite app_nil_r. split; [reflexivity|constructor]. }
  unfold mbind, io_bind, mret, io_ret.
  destruct (named _ _) as [|target rest].
  { eexists _, []. rewrite app_nil_r. split; [reflexivity|constructor]. }
  destruct (prepare_outcome joinpath runtime target tr) as (path & content & ->).
  destruct (Providers.aliyun_credentials_for_entry _ _) as [c|e].
  2: { eexists _, []. rewrite app_nil_r. split; [reflexivity|constructor]. }
  unfold CertbotRunner.run_certbot.
  destruct (subprocess_run _ _) as [[rc out] err]. cbn [negb].
  unfold CertbotRunner.ok. cbn [CertbotRunner.returncode].
  assert (Happ : ∀ (a b : event), ((tr ++ [a]) ++ [b] = tr ++ [a; b])%list)
    by (intros; by rewrite <- app_assoc).
  rewrite Happ.
  destruct (rc =? 0); cbn [negb andb];
    (eexists _, _; split; [reflexivity|]);
    (constructor; [done|]); (constructor; [|constructor]);
    rewrite !elem_of_cons, !elem_of_app, !elem_of_cons; tauto.
Qed.

End Renewal.

(** ** Recognising the administrator error *)

Section AdminError.

Lemma contains_prefix (s p : string) :
  String.prefix p s = true → CertbotRunner.contains s p = true.
Proof. intros H. destruct s; cbn [CertbotRunner.contains]; by rewrite H. Qed.

Lemma contains_app (a s b : string) :
  CertbotRunner.contains (a +:+ s +:+ b) s = true.
Proof.
  induction a as [|c a IH].
  - apply contains_prefix. apply (startswith_app s b).
  - change (CertbotRunner.contains (String c a +:+ s +:+ b) s)
      with (String.prefix s (String c (a +:+ s +:+ b))
            || CertbotRunner.contains (a +:+ s +:+ b) s).
    rewrite IH. apply orb_true_r.
Qed.

(** X16. A failed run whose captured error output contains the word
    "administrator", or the words "administrative rights", in any mix of
    upper and lower case and anywhere in the text, is recognised as
    requiring administrative rights. *)
Theorem admin_error_any_case (r : CertbotRunner.CertbotResult)
  (before word after : string) :
  CertbotRunner.stderr r = before +:+ word +:+ after →
  PyStr.lower word = "administrator" ∨ PyStr.lower word = "administrative rights" →
  CertbotRunner.is_admin_required_error r = true.
Proof.
  intros Herr Hword. unfold CertbotRunner.is_admin_required_error.
  rewrite Herr, !lower_app.
  destruct Hword as [-> | ->]; rewrite contains_app;
    [apply orb_true_r|apply orb_true_l].
Qed.

End AdminError.

(** ** Item files *)

Section ItemFiles.
Import Config Schema ConfigMerge.

Variable fnmatch : string -> string -> bool.

Lemma rfind_dot_app (s t : string) :
  rfind_dot t = None → rfind_dot (s +:+ "." +:+ t) = Some (String.length s).
Proof.
  intros Ht. induction s as [|c s IH].
  - change (rfind_dot ("" +:+ "." +:+ t))
      with (match rfind_dot t with
            | Some i => Some (S i)
            | None => if Ascii.eqb "." "." then Some 0%nat else None
            end).
    by rewrite Ht.
  - change (rfind_dot (String c s +:+ "." +:+ t))
      with (match rfind_dot (s +:+ "." +:+ t) with
            | Some i => Some (S i)
            | None => if Ascii.eqb c "." then Some 0%nat else None
            end).
    by rewrite IH.
Qed.

(** Stem and suffix of a name that ends with a dot-free extension. *)
Lemma stem_suffix_app (s t : string) :
  rfind_dot t = None → s ≠ "" → t ≠ "" →
  stem (s +:+ "." +:+ t) = s ∧ suffix (s +:+ "." +:+ t) = "." +:+ t.
Proof.
  intros Ht Hs Hte. unfold stem, suffix. rewrite rfind_dot_app by done.
  rewrite !string_length_app.
  assert (Hb : (0 <? String.length s)%nat
               && (String.length s
                   <? String.length s + (String.length "." + String.length t) - 1)%nat
               = true).
  { destruct s; [done|]. destruct t; [done|].
    apply andb_true_intro. split; [done|]. apply Nat.ltb_lt. simpl. lia. }
  rewrite Hb. split; [apply substring_app_l|].
  rewrite substring_app_r.
  replace (String.length s + (String.length "." + String.length t) - String.length s)%nat
    with (String.length ("." +:+ t)) by (rewrite string_length_app; lia).
  apply substring_all.
Qed.

(** The default name and the suffix for any dot-free extension. *)
Lemma default_name_facts (x ext : string) :
  rfind_dot ext = None → ext ≠ "" →
  _default_name_from_item ("item_" +:+ x +:+ "." +:+ ext) = x
  ∧ suffix ("item_" +:+ x +:+ "." +:+ ext) = "." +:+ ext.
Proof.
  intros Hd Hne.
  destruct (stem_suffix_app ("item_" +:+ x) ext Hd) as [Hstem Hsuffix]; [done..|].
  change ("item_" +:+ x +:+ "." +:+ ext) with (("item_" +:+ x) +:+ "." +:+ ext).
  split; [|done]. unfold _default_name_from_item. rewrite Hstem.
  rewrite (startswith_app "item_" x), string_length_app.
  change (String.length "item_" + String.length x - 5)%nat
    with (String.length x - 0)%nat.
  rewrite Nat.sub_0_r.
  change (String.substring 5 (String.length x) ("item_" +:+ x))
    with (String.substring 0 (String.length x) x).
  apply substring_all.
Qed.

(** X17. The default entry name of an item file [item_<x>.<ext>], for any
    text [x] (dots included) and an extension among toml, yaml and yml, is
    [x]; and the suffix that selects the parser is that extension. *)
Theorem default_name_of_item_file (x ext : string) :
  ext ∈ ["toml"; "yaml"; "yml"] →
  _default_name_from_item ("item_" +:+ x +:+ "." +:+ ext) = x
  ∧ suffix ("item_" +:+ x +:+ "." +:+ ext) = "." +:+ ext.
Proof.
  intros Hext. rewrite !elem_of_cons, elem_of_nil in Hext.
  destruct Hext as [-> | [-> | [-> | []]]];
    by apply default_name_facts.
Qed.

Lemma result_bind_ok {A B : Type} (r : result A) (k : A → result B) (b : B) :
  r ≫= k = Ok b → ∃ a, r = Ok a ∧ k a = Ok b.
Proof. destruct r as [a|]; [eauto|done]. Qed.

Lemma dict_get_app_fresh (d : dict) (k : string) (v : raw) :
  dict_get d k = None → dict_get (d ++ [(k, v)])%list k = Some v.
Proof.
  induction d as [|[k' v'] d IH]; cbn [dict_get app].
  - by rewrite String.eqb_refl.
  - destruct (String.eqb k' k); [done|]. apply IH.
Qed.

(** X18. An item file [item_<x>.toml] that is neither the global file nor
    an example file, and whose mapping has none of the keys [entries],
    [global] and [name], contributes exactly one entry; once validated, that
    entry is named [x]. *)
Theorem nameless_item_is_named_after_file (global_name x : string) (item : file)
  (d : dict) :
  f_name item = "item_" +:+ x +:+ ".toml" →
  f_name item ≠ global_name →
  PyStr.endswith (f_name item) ".example.toml" = false →
  f_doc item = Some d →
  dict_get d "entries" = None →
  dict_get d "global" = None →
  dict_get d "name" = None →
  ∃ raw_entry,
    item_entries global_name item = Ok [raw_entry]
    ∧ ∀ model e, EntryConfig_validate model raw_entry = Ok e → name e = x.
Proof.
  intros Hname Hglobal Hexample Hdoc He Hg Hn.
  destruct (default_name_facts x "toml") as [Hdefault Hsuffix]; [done..|].
  change ("item_" +:+ x +:+ "." +:+ "toml") with ("item_" +:+ x +:+ ".toml") in *.
  exists (RDict (d ++ [("name", RStr x)])%list). split.
  - unfold item_entries, load_config_dict.
    destruct (String.eqb_spec (f_name item) global_name); [done|].
    rewrite Hexample, Hdoc, Hname, Hsuffix, Hdefault.
    change (PyStr.lower ("." +:+ "toml")) with ".toml".
    cbn [String.eqb Ascii.eqb Bool.eqb orb mbind result_bind].
    unfold dict_setdefault, dict_mem. by rewrite He, Hg, Hn.
  - intros model e H. unfold EntryConfig_validate in H.
    apply result_bind_ok in H as (a & Ha & H).
    unfold str_field in Ha. rewrite (dict_get_app_fresh d "name" (RStr x) Hn) in Ha.
    injection Ha as <-.
    repeat (apply result_bind_ok in H as (? & _ & H)).
    by injection H as <-.
Qed.

Lemma merge_items_extends (global_name : string) (items : list file) :
  ∀ acc merged, merge_items global_name items acc = Ok merged →
                ∃ more, merged = (acc ++ more)%list.
Proof.
  induction items as [|item items IH]; intros acc merged H.
  - injection H as <-. exists []. by rewrite app_nil_r.
  - cbn [merge_items] in H. apply result_bind_ok in H as (es & _ & H).
    apply IH in H as [more ->]. exists (es ++ more)%list. by rewrite app_assoc.
Qed.

Lemma entries_validate_app (model : string) (l1 l2 : list raw) :
  ∀ es, entries_validate model (l1 ++ l2) = Ok es →
        ∃ es1 es2, entries_validate model l1 = Ok es1 ∧ es = (es1 ++ es2)%list.
Proof.
  induction l1 as [|v l1 IH]; intros es H.
  - exists [], es. done.
  - cbn [app entries_validate] in H.
    apply result_bind_ok in H as (e & He & H).
    apply result_bind_ok in H as (es' & Hes' & H). injection H as <-.
    apply IH in Hes' as (es1 & es2 & H1 & ->).
    exists (e :: es1), es2. split; [|done].
    cbn [entries_validate]. by rewrite He, H1.
Qed.

(** X19. Whatever the item files hold, a merged configuration that loads
    keeps the global settings of the global file (a [global] table in an
    item file changes nothing) and starts with the entries of the global
    file, in their order; item files only add entries after them. *)
Theorem merge_keeps_global_file (dir : list file) (global_name : string)
  (base_cfg cfg : AppConfig) :
  load_config dir global_name = Ok base_cfg →
  load_merged_config fnmatch dir global_name = Ok cfg →
  global_ cfg = global_ base_cfg
  ∧ ∃ more, entries cfg = (entries base_cfg ++ more)%list.
Proof.
  intros Hbase Hmerged. unfold load_merged_config in Hmerged.
  rewrite Hbase in Hmerged. cbn [mbind result_bind] in Hmerged.
  apply result_bind_ok in Hmerged as (global_only & _ & Hmerged).
  apply result_bind_ok in Hmerged as (merged & Hitems & Hvalid).
  apply merge_items_extends in Hitems as [more ->].
  unfold AppConfig_validate in Hvalid.
  cbn [dict_get String.eqb Ascii.eqb Bool.eqb] in Hvalid.
  rewrite GlobalConfig_roundtrip in Hvalid. cbn [mbind result_bind] in Hvalid.
  apply result_bind_ok in Hvalid as (es & Hes & Hcfg). injection Hcfg as <-.
  cbn [global_ entries]. split; [done|].
  apply entries_validate_app in Hes as (es1 & es2 & H1 & ->).
  rewrite entries_roundtrip in H1. injection H1 as <-. by exists es2.
Qed.

End ItemFiles.

(** ** Run logs and their cleanup *)

Section RunLogs.
Import RuntimeLogging Logging.

Lemma safe_char_safe (ch : ascii) :
  isalnum (safe_char ch) || Ascii.eqb (safe_char ch) "-"
  || Ascii.eqb (safe_char ch) "_" = true.
Proof.
  unfold safe_char.
  destruct (isalnum ch || Ascii.eqb ch "-" || Ascii.eqb ch "_") eqn:H; done.
Qed.

Lemma safe_char_idem (ch : ascii) : safe_char (safe_char ch) = safe_char ch.
Proof. unfold safe_char at 1. by rewrite safe_char_safe. Qed.

(** X20. The sanitised command of a run log name has the length of the
    command, is left unchanged by sanitising it again, and holds only
    alphanumeric characters, "-" and "_": in particular no path separator
    and no dot. *)
Theorem safe_cmd_is_safe (command : string) :
  String.length (safe_cmd command) = String.length command
  ∧ safe_cmd (safe_cmd command) = safe_cmd command
  ∧ ∀ ch, In ch (list_ascii_of_string (safe_cmd command)) →
          isalnum ch || Ascii.eqb ch "-" || Ascii.eqb ch "_" = true
          ∧ ch ≠ "/"%char ∧ ch ≠ "\"%char ∧ ch ≠ "."%char.
Proof.
  induction command as [|c command (IHl & IHi & IHc)]; [done|].
  cbn [safe_cmd String.length list_ascii_of_string]. repeat split.
  - by rewrite IHl.
  - by rewrite safe_char_idem, IHi.
  - destruct H as [<-|H]; [apply safe_char_safe|by apply IHc].
  - destruct H as [<-|H]; [|by apply IHc].
    intros Heq. pose proof (safe_char_safe c) as Hs. by rewrite Heq in Hs.
  - destruct H as [<-|H]; [|by apply IHc].
    intros Heq. pose proof (safe_char_safe c) as Hs. by rewrite Heq in Hs.
  - destruct H as [<-|H]; [|by apply IHc].
    intros Heq. pose proof (safe_char_safe c) as Hs. by rewrite Heq in Hs.
Qed.

(** X21. Whatever the timestamp and the command, the name of a run log
    ends with [.log]; such a file, once its modification time is before the
    cutoff and it can be unlinked, is among those [cleanup_logs] removes,
    and it is kept otherwise. *)
Theorem run_logs_are_cleaned (ts command : string) (mtime cutoff : Z)
  (unlink : bool) :
  PyStr.endswith (run_logfile_name ts command) ".log" = true
  ∧ removes cutoff {| lf_name := run_logfile_name ts command;
                      lf_mtime := Some mtime; lf_unlink := unlink |}
    = (mtime <? cutoff) && unlink.
Proof.
  assert (He : PyStr.endswith (run_logfile_name ts command) ".log" = true).
  { unfold run_logfile_name.
    pose proof (endswith_app (ts +:+ "_" +:+ safe_cmd command) ".log") as H.
    by rewrite !string_app_assoc in H. }
  split; [done|]. unfold removes. cbn [lf_name lf_mtime lf_unlink].
  by rewrite He.
Qed.

Lemma sweep_spec (cutoff : Z) (files : list log_file) :
  ∀ removed,
    sweep cutoff files removed
    = (removed + Z.of_nat (length (filter (λ f, removes cutoff f = true) files)),
       filter (λ f, removes cutoff f = false) files).
Proof.
  induction files as [|f files IH]; intros removed; cbn [sweep].
  - simpl. f_equal. lia.
  - destruct (removes cutoff f) eqn:Hf.
    + rewrite IH, filter_cons_True, filter_cons_False by (done || congruence).
      cbn [length]. f_equal. lia.
    + rewrite IH, filter_cons_False, filter_cons_True by (done || congruence).
      done.
Qed.

(** X22. When [cleanup_logs] returns for an existing directory, the number
    it returns is the number of files that have gone; the files left are
    the other files, in their order; and no file is removed whose name does
    not end with [.log], whose modification time cannot be read, or that
    was modified at or after [now] minus [keep_days] days. *)
Theorem cleanup_removes_only_old_logs (now keep_days n : Z)
  (files rest : list log_file) :
  cleanup_logs now (Some files) keep_days = Some (n, Some rest) →
  n = Z.of_nat (length files) - Z.of_nat (length rest)
  ∧ rest `sublist_of` files
  ∧ ∀ f, f ∈ files →
         PyStr.endswith (lf_name f) ".log" = false
         ∨ (∀ mtime, lf_mtime f = Some mtime → now - keep_days * 86400000000 <= mtime) →
         f ∈ rest.
Proof.
  unfold cleanup_logs. destruct (cutoff_of now keep_days) as [cutoff|] eqn:Hc; [|done].
  rewrite sweep_spec. intros [= <- <-].
  assert (Hcut : cutoff = now - keep_days * 86400000000).
  { unfold cutoff_of in Hc. repeat case_match; congruence. }
  repeat split.
  - pose proof (filter_app_complement (λ f, removes cutoff f = true) files) as Hp.
    apply Permutation_length in Hp. rewrite length_app in Hp.
    assert (Hl : length (filter (λ f, ¬ removes cutoff f = true) files)
                 = length (filter (λ f, removes cutoff f = false) files)).
    { f_equal. apply list_filter_iff. intros f. by destruct (removes cutoff f). }
    lia.
  - apply sublist_filter.
  - intros f Hin Hkeep. apply list_elem_of_filter. split; [|done].
    unfold removes. destruct Hkeep as [-> | Hm]; [done|].
    destruct (lf_mtime f) as [mtime|]; [|apply andb_false_r].
    specialize (Hm mtime eq_refl).
    destruct (Z.ltb_spec mtime cutoff); [lia|]. apply andb_false_r.
Qed.

(** X23. Keeping more days never removes more: between two runs on the
    same directory at the same time, the one with the larger [keep_days]
    returns a number that is not larger. *)
Theorem cleanup_monotone (now keep1 keep2 n1 n2 : Z) (files : list log_file)
  (rest1 rest2 : option (list log_file)) :
  keep1 <= keep2 →
  cleanup_logs now (Some files) keep1 = Some (n1, rest1) →
  cleanup_logs now (Some files) keep2 = Some (n2, rest2) →
  n2 <= n1.
Proof.
  intros Hle. unfold cleanup_logs.
  destruct (cutoff_of now keep1) as [c1|] eqn:H1; [|done].
  destruct (cutoff_of now keep2) as [c2|] eqn:H2; [|done].
  rewrite !sweep_spec. intros [= <- _] [= <- _].
  assert (Hc : c2 <= c1).
  { unfold cutoff_of in H1, H2. repeat case_match; simplify_eq. lia. }
  clear H1 H2. induction files as [|f files IH]; [done|].
  assert (Himp : removes c2 f = true → removes c1 f = true).
  { unfold removes. destruct (PyStr.endswith _ _); [|done].
    destruct (lf_mtime f) as [m|]; [|done]. cbn [andb].
    intros [Hm ->]%andb_prop. apply Z.ltb_lt in Hm.
    apply andb_true_intro. split; [apply Z.ltb_lt; lia|done]. }
  rewrite !filter_cons.
  destruct (decide (removes c1 f = true)) as [Hr1|Hr1],
    (decide (removes c2 f = true)) as [Hr2|Hr2]; cbn [length]; try lia.
  by apply Himp in Hr2.
Qed.

End RunLogs.

(** ** The further properties at concrete inputs *)

Section MoreInstances.
Import Config Examples MoreExamples.

Lemma validation_reports_sorted_keys_witness :
  Forall (λ e, ∃ ks, _required_env_keys e (∅ : gmap string string) = Ok ks)
         (entries (config_of [entry_account; entry_reference]))
  ∧ ∃ keys,
      Sorted (λ a b, String.leb a b = true) keys
      ∧ NoDup keys
      ∧ (∀ k, k ∈ keys
              ↔ ∃ e ks, e ∈ entries (config_of [entry_account; entry_reference])
                        ∧ _required_env_keys e ∅ = Ok ks ∧ k ∈ ks)
      ∧ validate_required_secrets (config_of [entry_account; entry_reference]) ∅
        = match keys with
          | [] => Ok tt
          | _ :: _ =>
              Raise (ValueError ("Missing required env keys:" +:+ PyStr.nl
                                 +:+ PyStr.join PyStr.nl keys))
          end.
Proof.
  assert (H : Forall (λ e, ∃ ks, _required_env_keys e (∅ : gmap string string) = Ok ks)
                     (entries (config_of [entry_account; entry_reference])))
    by (repeat (constructor; [eexists; reflexivity|]); constructor).
  split; [exact H|].
  exact (validation_reports_sorted_keys _ ∅ H).
Defined.

Lemma validated_account_entry_resolves_witness :
  PyStr.lower (dns_provider entry_account) = "aliyun"
  ∧ (_required_env_keys entry_account env_account = Ok []
     ↔ ∃ c, Providers.aliyun_credentials_for_entry env_account entry_account = Ok c).
Proof.
  split; [reflexivity|].
  apply (validated_account_entry_resolves entry_account env_account "acc");
    [|reflexivity|done|reflexivity].
  intros value Hin. apply list_elem_of_In in Hin. simpl in Hin.
  by destruct Hin as [<-|[<-|[<-|[]]]].
Defined.

Lemma validated_references_resolve_witness :
  _required_env_keys entry_two_references env_two_references = Ok []
  ∧ ∃ a s,
      env_two_references !! PyStr.strip "AK_VAR" = Some a ∧ a ≠ ""
      ∧ env_two_references !! PyStr.strip "SK_VAR" = Some s ∧ s ≠ ""
      ∧ Providers.aliyun_credentials_for_entry env_two_references entry_two_references
        = Ok {| Providers.access_key_id := a; Providers.access_key_secret := s |}.
Proof.
  split; [reflexivity|].
  apply (validated_references_resolve entry_two_references env_two_references
           "AK_VAR" "SK_VAR"); [reflexivity|done|reflexivity|done|reflexivity].
Defined.

Lemma recognised_reference_resolves_alike_witness :
  _is_env_ref "${ AK_VAR }" = true
  ∧ Providers._resolve_value env_two_references "${ AK_VAR }"
    = if env_unset env_two_references (_env_ref_key "${ AK_VAR }")
      then Raise (ValueError ("missing env var for reference: "
                              +:+ _env_ref_key "${ AK_VAR }"))
      else Ok (PyStr.the (env_two_references !! _env_ref_key "${ AK_VAR }")).
Proof.
  split; [reflexivity|].
  apply (recognised_reference_resolves_alike env_two_references "${ AK_VAR }").
  reflexivity.
Defined.

Lemma classify_antitone_witness :
  3 <= 10 ∧ (Cli.classify 10 30 7).2 <= (Cli.classify 3 30 7).2.
Proof. split; [lia|]. apply classify_antitone. lia. Defined.

Lemma expired_is_force_renew_witness :
  0 <= 7 ∧ -2 < 0 ∧ Cli.classify (-2) 30 7 = ("force-renew", 20).
Proof. split; [lia|]. split; [lia|]. apply expired_is_force_renew; lia. Defined.

Lemma fix_without_due_entries_is_check_witness :
  (Cli.evaluate joinpath certs_in_5_days runtime_ab 3 1
     (entries (Run.config runtime_ab)) [] 0).2 < 20
  ∧ Cli.check joinpath certs_in_5_days certbot_fails runtime_ab 3 1 None true []
    = (Raise (Exit (Cli.evaluate joinpath certs_in_5_days runtime_ab 3 1
                      (entries (Run.config runtime_ab)) [] 0).2), []).
Proof.
  split; [reflexivity|].
  apply (fix_without_due_entries_is_check joinpath certs_in_5_days certbot_fails
           runtime_ab 3 1 []).
  reflexivity.
Defined.

Lemma new_failure_exports_nothing_witness :
  (∀ t cmd, (certbot_fails t cmd).1.1 ≠ 0)
  ∧ ∃ e tr',
      Cli.new joinpath certbot_fails runtime_ab "a" true true false [] = (Raise e, tr')
      ∧ (tr' = []
         ∨ ∃ path content cmd,
             tr' = ([] ++ [EvWriteIni path content; EvCertbot cmd])%list
             ∧ (e = Exit 1 ∨ e = Exit 2)).
Proof.
  split; [by intros t cmd|].
  apply (new_failure_exports_nothing joinpath certbot_fails runtime_ab "a"
           true true false []).
  by intros t cmd.
Defined.

Lemma new_verbose_exit_code_witness :
  (Cli.new joinpath certbot_fails runtime_ab "a" true true true []).1
  = Raise (Exit 1)
  ∧ 1 = 1.
Proof.
  split; [reflexivity|].
  eapply (new_verbose_exit_code joinpath certbot_fails runtime_ab "a" true true []).
  vm_compute. reflexivity.
Defined.

Lemma renew_all_needs_every_credential_witness :
  entry_unconfigured ∈ entries (Run.config (runtime_of [entry_a; entry_unconfigured]))
  ∧ ∃ err' added,
      Forall (λ ev, ∃ p c, ev = EvWriteIni p c) added
      ∧ Cli.renew joinpath certbot_fails (runtime_of [entry_a; entry_unconfigured])
          true None false false true false []
        = (Raise err', ([] ++ added)%list).
Proof.
  assert (Hin : entry_unconfigured
                ∈ entries (Run.config (runtime_of [entry_a; entry_unconfigured])))
    by (simpl; repeat constructor).
  split; [exact Hin|].
  apply (renew_all_needs_every_credential joinpath certbot_fails
           (runtime_of [entry_a; entry_unconfigured]) None false false true false []
           entry_unconfigured
           (ValueError "aliyun entry missing account_id or credentials") Hin).
  reflexivity.
Defined.

Lemma fix_renew_is_dry_run_witness :
  Cli.a_action action_renew = "renew"
  ∧ ∃ r added,
      Cli.execute_action joinpath certbot_fails runtime_ab action_renew []
      = (r, ([] ++ added)%list)
      ∧ Forall (λ ev, match ev with
                      | EvWriteIni _ _ => True
                      | EvCertbot cmd => "--dry-run" ∈ cmd
                      | EvExport _ _ _ => False
                      end) added.
Proof.
  split; [reflexivity|].
  apply (fix_renew_is_dry_run joinpath certbot_fails runtime_ab action_renew []).
  reflexivity.
Defined.

Lemma admin_error_any_case_witness :
  PyStr.lower "ADMINISTRATOR" = "administrator"
  ∧ CertbotRunner.is_admin_required_error result_admin = true.
Proof.
  split; [reflexivity|].
  apply (admin_error_any_case result_admin "Error: run as " "ADMINISTRATOR" " please");
    [reflexivity|by left].
Defined.

Lemma default_name_of_item_file_witness :
  "toml" ∈ ["toml"; "yaml"; "yml"]
  ∧ ConfigMerge._default_name_from_item ("item_" +:+ "a.b" +:+ "." +:+ "toml") = "a.b"
  ∧ ConfigMerge.suffix ("item_" +:+ "a.b" +:+ "." +:+ "toml") = "." +:+ "toml".
Proof.
  split; [by left|]. apply default_name_of_item_file. by left.
Defined.

Lemma nameless_item_is_named_after_file_witness :
  ConfigMerge.f_name item_foo = "item_" +:+ "foo" +:+ ".toml"
  ∧ ∃ raw_entry,
      ConfigMerge.item_entries "config.toml" item_foo = Ok [raw_entry]
      ∧ ∀ model e, Schema.EntryConfig_validate model raw_entry = Ok e → name e = "foo".
Proof.
  split; [reflexivity|].
  eapply (nameless_item_is_named_after_file "config.toml" "foo" item_foo);
    [reflexivity|done|reflexivity|reflexivity|reflexivity|reflexivity|reflexivity].
Defined.

Lemma merge_keeps_global_file_witness :
  ∃ base_cfg cfg,
    ConfigMerge.load_config dir_with_item "config.toml" = Ok base_cfg
    ∧ ConfigMerge.load_merged_config fnmatch_items dir_with_item "config.toml" = Ok cfg
    ∧ length (entries base_cfg) = 2%nat
    ∧ length (entries cfg) = 3%nat
    ∧ global_ cfg = global_ base_cfg
    ∧ ∃ more, entries cfg = (entries base_cfg ++ more)%list.
Proof.
  eexists _, _. split; [reflexivity|]. split; [reflexivity|].
  split; [reflexivity|]. split; [reflexivity|].
  apply (merge_keeps_global_file fnmatch_items dir_with_item "config.toml");
    reflexivity.
Defined.

Lemma cleanup_removes_only_old_logs_witness :
  Logging.cleanup_logs log_now (Some log_files) 30 = Some (1, Some log_files_left)
  ∧ 1 = Z.of_nat (length log_files) - Z.of_nat (length log_files_left)
  ∧ log_files_left `sublist_of` log_files.
Proof.
  split; [reflexivity|].
  destruct (cleanup_removes_only_old_logs log_now 30 1 log_files log_files_left eq_refl)
    as (Hn & Hsub & _).
  by split.
Defined.

Lemma cleanup_monotone_witness :
  30 <= 2000
  ∧ Logging.cleanup_logs log_now (Some log_files) 30 = Some (1, Some log_files_left)
  ∧ Logging.cleanup_logs log_now (Some log_files) 2000 = Some (0, Some log_files)
  ∧ 0 <= 1.
Proof.
  split; [lia|]. split; [reflexivity|]. split; [reflexivity|].
  apply (cleanup_monotone log_now 30 2000 1 0 log_files
           (Some log_files_left) (Some log_files)); [lia|reflexivity|reflexivity].
Defined.

End MoreInstances.
